(** * Dashboard query handler of the mental-health trends backend

    A shallow embedding of the Flask view [get_dashboard] of [src/app.py],
    together with the parts of Python's standard library the view calls: the
    proleptic Gregorian calendar of [datetime], [strftime] and [strptime] for
    the format [%Y-%m-%d], the [random] module as an interface, and
    [round] and [max] on numbers.

    Conventions.
    - A Python [int] is a [Z].  A Python [float] is idealised as a real
      number ([R]): the rounding of binary64 arithmetic is not modelled.
    - A Python [str] is a [string]; its characters are code points below 256,
      among which the decimal digits are exactly ['0'] to ['9'].
    - The handler reads the system clock and the process-wide generator; both
      live in an explicit [world] threaded through a state-and-exception
      monad.
    - [strftime] is that of CPython on the C library of Linux: [%Y] prints
      the year as a plain number, so years below 1000 come out on fewer than
      four digits; [%m] and [%d] are on two digits.
    - [jsonify] is not modelled: the response is the value handed to it. *)

From Stdlib Require Import ZArith List Bool Lia String Ascii DecimalString DecimalZ.
From Stdlib Require Import Reals Lra.
Import ListNotations.

Local Open Scope Z_scope.

(** ** Exceptions and results *)

Inductive exn : Type :=
| ValueError
| OverflowError.

Inductive result (A : Type) : Type :=
| Ok (a : A)
| Raise (e : exn).
Arguments Ok {A} a.
Arguments Raise {A} e.

Definition result_bind {A B} (r : result A) (k : A -> result B) : result B :=
  match r with
  | Ok a => k a
  | Raise e => Raise e
  end.

(** [range(n)] *)
Definition range (n : Z) : list Z := map Z.of_nat (seq 0 (Z.to_nat n)).

(** ** The calendar of [datetime] *)

Module Calendar.

Definition MINYEAR : Z := 1.
Definition MAXYEAR : Z := 9999.

(** [date(9999, 12, 31).toordinal()] *)
Definition _MAXORDINAL : Z := 3652059.

(** Table lookup [t[i]]; index 0 of both tables holds the placeholder [-1]. *)
Definition table_get (t : list Z) (i : Z) : Z := nth (Z.to_nat i) t 0.

Definition _DAYS_IN_MONTH : list Z :=
  [-1; 31; 28; 31; 30; 31; 30; 31; 31; 30; 31; 30; 31].

Definition _DAYS_BEFORE_MONTH : list Z :=
  [-1; 0; 31; 59; 90; 120; 151; 181; 212; 243; 273; 304; 334].

(** A Python [bool] used as a number. *)
Definition bool_int (b : bool) : Z := if b then 1 else 0.

Definition _is_leap (year : Z) : bool :=
  (year mod 4 =? 0) && (negb (year mod 100 =? 0) || (year mod 400 =? 0)).

Definition _days_before_year (year : Z) : Z :=
  let y := year - 1 in
  y * 365 + y / 4 - y / 100 + y / 400.

Definition _days_in_month (year month : Z) : Z :=
  if (month =? 2) && _is_leap year then 29
  else table_get _DAYS_IN_MONTH month.

Definition _days_before_month (year month : Z) : Z :=
  table_get _DAYS_BEFORE_MONTH month + bool_int ((2 <? month) && _is_leap year).

Definition _ymd2ord (year month day : Z) : Z :=
  _days_before_year year + _days_before_month year month + day.

Definition _DI400Y : Z := 146097.
Definition _DI100Y : Z := 36524.
Definition _DI4Y : Z := 1461.

(** Month and day from the zero-based day of the year, as the end of
    [_ord2ymd] computes them. *)
Definition month_day_of (leapyear : bool) (n : Z) : Z * Z :=
  let month := Z.shiftr (n + 50) 5 in
  let preceding :=
    table_get _DAYS_BEFORE_MONTH month + bool_int ((2 <? month) && leapyear) in
  if preceding >? n then
    let month := month - 1 in
    let preceding :=
      preceding - (table_get _DAYS_IN_MONTH month
                   + bool_int ((month =? 2) && leapyear)) in
    (month, n - preceding + 1)
  else (month, n - preceding + 1).

Definition _ord2ymd (n : Z) : Z * Z * Z :=
  let n := n - 1 in
  let n400 := n / _DI400Y in
  let n := n mod _DI400Y in
  let year := n400 * 400 + 1 in
  let n100 := n / _DI100Y in
  let n := n mod _DI100Y in
  let n4 := n / _DI4Y in
  let n := n mod _DI4Y in
  let n1 := n / 365 in
  let n := n mod 365 in
  let year := year + (n100 * 100 + n4 * 4 + n1) in
  if (n1 =? 4) || (n100 =? 4) then (year - 1, 12, 31)
  else
    let leapyear := (n1 =? 3) && (negb (n4 =? 24) || (n100 =? 3)) in
    let '(month, day) := month_day_of leapyear n in
    (year, month, day).

(** [_check_date_fields]: the triples a [date] object can hold. *)
Definition valid_ymd (year month day : Z) : bool :=
  (MINYEAR <=? year) && (year <=? MAXYEAR)
  && (1 <=? month) && (month <=? 12)
  && (1 <=? day) && (day <=? _days_in_month year month).

(** *** Vocabulary of the calendar proofs *)

(** Days in a month and days before it, as functions of the leap flag. *)
Definition dim (leap : bool) (m : Z) : Z :=
  if (m =? 2) && leap then 29 else table_get _DAYS_IN_MONTH m.

Definition dbm (leap : bool) (m : Z) : Z :=
  table_get _DAYS_BEFORE_MONTH m + bool_int ((2 <? m) && leap).

(** [month_day_of] lands on a day of a month, and on the right one. *)
Definition month_day_ok (leap : bool) (n : Z) : bool :=
  let '(m, d) := month_day_of leap n in
  (1 <=? m) && (m <=? 12) && (1 <=? d) && (d <=? dim leap m)
  && (dbm leap m + d =? n + 1).

Definition months : list Z := range 13.

(** The ordinal of 1000-01-01, the first day whose year has four digits. *)
Definition first_four_digit_day : Z := _ymd2ord 1000 1 1.

(** Within one year the months tile the days, in order. *)
Definition months_tile (leap : bool) : bool :=
  forallb (fun m =>
    (m <? 1) || (0 <=? dbm leap m) && (1 <=? dim leap m) &&
    (dim leap m <=? 31) &&
    (dbm leap m + dim leap m <=? 365 + bool_int leap) &&
    forallb (fun m' => (m' <=? m) || (dbm leap m + dim leap m <=? dbm leap m'))
            months) months.

End Calendar.

(** ** [timedelta] and [datetime] objects *)

Record timedelta : Type := mk_timedelta {
  td_days : Z;
  td_seconds : Z;
  td_microseconds : Z
}.

Record datetime : Type := mk_datetime {
  year : Z;
  month : Z;
  day : Z;
  hour : Z;
  minute : Z;
  second : Z;
  microsecond : Z
}.

Module Datetime.
Import Calendar.

(** [timedelta(days, seconds, microseconds)] on integers: microseconds carry
    into seconds, seconds into days; more than 999999999 days either way is
    an [OverflowError]. *)
Definition timedelta_new (days seconds microseconds : Z) : result timedelta :=
  let s := seconds + microseconds / 1000000 in
  let us := microseconds mod 1000000 in
  let d := days + s / 86400 in
  let s := s mod 86400 in
  if Z.abs d >? 999999999 then Raise OverflowError
  else Ok (mk_timedelta d s us).

(** [timedelta(days=n)] *)
Definition timedelta_of_days (n : Z) : result timedelta := timedelta_new n 0 0.

Definition timedelta_add (a b : timedelta) : result timedelta :=
  timedelta_new (td_days a + td_days b) (td_seconds a + td_seconds b)
                (td_microseconds a + td_microseconds b).

Definition timedelta_neg (a : timedelta) : result timedelta :=
  timedelta_new (- td_days a) (- td_seconds a) (- td_microseconds a).

(** The field values a [datetime] object can hold. *)
Definition valid_datetime (dt : datetime) : bool :=
  valid_ymd (year dt) (month dt) (day dt)
  && (0 <=? hour dt) && (hour dt <=? 23)
  && (0 <=? minute dt) && (minute dt <=? 59)
  && (0 <=? second dt) && (second dt <=? 59)
  && (0 <=? microsecond dt) && (microsecond dt <=? 999999).

(** [datetime(year, month, day, hour, minute, second, microsecond)] *)
Definition datetime_new (y m d hh mm ss us : Z) : result datetime :=
  let dt := mk_datetime y m d hh mm ss us in
  if valid_datetime dt then Ok dt else Raise ValueError.

Definition toordinal (dt : datetime) : Z :=
  _ymd2ord (year dt) (month dt) (day dt).

(** [datetime.combine(date.fromordinal(n), time(hh, mm, ss, us))] *)
Definition combine_fromordinal (n hh mm ss us : Z) : datetime :=
  let '(y, m, d) := _ord2ymd n in
  mk_datetime y m d hh mm ss us.

(** [datetime.__add__(self, other)] for a [timedelta] *)
Definition datetime_add (self : datetime) (other : timedelta) : result datetime :=
  result_bind
    (timedelta_new (toordinal self)
                   (hour self * 3600 + minute self * 60 + second self)
                   (microsecond self))
    (fun delta0 =>
  result_bind (timedelta_add delta0 other) (fun delta =>
  let hh := td_seconds delta / 3600 in
  let rem := td_seconds delta mod 3600 in
  let mm := rem / 60 in
  let ss := rem mod 60 in
  if (0 <? td_days delta) && (td_days delta <=? _MAXORDINAL) then
    Ok (combine_fromordinal (td_days delta) hh mm ss (td_microseconds delta))
  else Raise OverflowError)).

(** [datetime.__sub__(self, other)] for a [timedelta] is [self + -other]. *)
Definition datetime_sub_timedelta (self : datetime) (other : timedelta)
  : result datetime :=
  result_bind (timedelta_neg other) (datetime_add self).

(** [datetime.__sub__(self, other)] for a naive [datetime] *)
Definition datetime_sub (self other : datetime) : result timedelta :=
  let days1 := toordinal self in
  let days2 := toordinal other in
  let secs1 := second self + minute self * 60 + hour self * 3600 in
  let secs2 := second other + minute other * 60 + hour other * 3600 in
  timedelta_new (days1 - days2) (secs1 - secs2)
                (microsecond self - microsecond other).

(** A [datetime] at 00:00:00. *)
Definition midnight (dt : datetime) : Prop :=
  hour dt = 0 /\ minute dt = 0 /\ second dt = 0 /\ microsecond dt = 0.

End Datetime.

(** ** Strings: [str(int)], [strftime] and [strptime] for [%Y-%m-%d] *)

Module Text.
Import Calendar Datetime.

(** [str(i)] for an integer. *)
Definition str_int (i : Z) : string :=
  NilZero.string_of_int (Z.to_int i).

Fixpoint zeros (n : nat) : string :=
  match n with
  | O => EmptyString
  | S k => String "0" (zeros k)
  end.

(** [s.zfill(width)] for an unsigned numeral. *)
Definition zfill (width : nat) (s : string) : string :=
  (zeros (width - String.length s) ++ s)%string.

(** [dt.strftime('%Y-%m-%d')]: the year as a plain number, without leading
    zeros, and month and day on two digits each. *)
Definition strftime (dt : datetime) : string :=
  (str_int (year dt) ++ "-" ++ zfill 2 (str_int (month dt))
   ++ "-" ++ zfill 2 (str_int (day dt)))%string.

Definition is_digit (c : ascii) : bool :=
  let n := nat_of_ascii c in (48 <=? n)%nat && (n <=? 57)%nat.

Definition digit_val (c : ascii) : Z := Z.of_nat (nat_of_ascii c) - 48.

Definition in_range (lo hi : ascii) (c : ascii) : bool :=
  let n := nat_of_ascii c in
  (nat_of_ascii lo <=? n)%nat && (n <=? nat_of_ascii hi)%nat.

(** A group of the regular expression with a numeric value: every way it can
    match a prefix of the input, in the order a backtracking matcher tries
    them, each with the value read and the rest left unread. *)
Definition group : Type := string -> list (Z * string).

(** [%Y] is [\d\d\d\d]. *)
Definition re_Y : group := fun s =>
  match s with
  | String a (String b (String c (String d rest))) =>
      if is_digit a && is_digit b && is_digit c && is_digit d then
        [(1000 * digit_val a + 100 * digit_val b + 10 * digit_val c
          + digit_val d, rest)]
      else []
  | _ => []
  end.

(** Two characters, the first in [[lo1-hi1]] and the second in [[lo2-hi2]]. *)
Definition two_chars (lo1 hi1 lo2 hi2 : ascii) : group := fun s =>
  match s with
  | String a (String b rest) =>
      if in_range lo1 hi1 a && in_range lo2 hi2 b then
        [(10 * digit_val a + digit_val b, rest)]
      else []
  | _ => []
  end.

(** One character in [[lo-hi]]. *)
Definition one_char (lo hi : ascii) : group := fun s =>
  match s with
  | String a rest =>
      if in_range lo hi a then [(digit_val a, rest)] else []
  | _ => []
  end.

(** A space, then one character in [[lo-hi]]; [int] skips the space. *)
Definition space_then (lo hi : ascii) : group := fun s =>
  match s with
  | String a (String b rest) =>
      if Ascii.eqb a " " && in_range lo hi b then [(digit_val b, rest)] else []
  | _ => []
  end.

Definition alt (g1 g2 : group) : group := fun s => g1 s ++ g2 s.

(** [%m] is [1[0-2]|0[1-9]|[1-9]]. *)
Definition re_m : group :=
  alt (two_chars "1" "1" "0" "2")
 (alt (two_chars "0" "0" "1" "9")
      (one_char "1" "9")).

(** [%d] is [3[0-1]|[1-2]\d|0[1-9]|[1-9]| [1-9]]. *)
Definition re_d : group :=
  alt (two_chars "3" "3" "0" "1")
 (alt (two_chars "1" "2" "0" "9")
 (alt (two_chars "0" "0" "1" "9")
 (alt (one_char "1" "9")
      (space_then "1" "9")))).

(** The literal [-] of the format. *)
Definition re_dash (s : string) : list string :=
  match s with
  | String c rest => if Ascii.eqb c "-" then [rest] else []
  | _ => []
  end.

(** All matches of [-%m-%d] at the start of [s], in matcher order. *)
Definition re_tail (s : string) : list (Z * Z * string) :=
  flat_map (fun s1 =>
    flat_map (fun '(m, s2) =>
      flat_map (fun s3 =>
        map (fun '(d, s4) => (m, d, s4)) (re_d s3))
        (re_dash s2))
      (re_m s1))
    (re_dash s).

(** All matches of [%Y-%m-%d] at the start of [s], in matcher order. *)
Definition re_date (s : string) : list (Z * Z * Z * string) :=
  flat_map (fun '(y, s1) => map (fun '(m, d, rest) => (y, m, d, rest)) (re_tail s1))
           (re_Y s).

(** [datetime.strptime(s, '%Y-%m-%d')]: the first match of the format at the
    start of [s]; no match, text left over, or fields that are no calendar
    date are a [ValueError]. *)
Definition strptime (s : string) : result datetime :=
  match re_date s with
  | [] => Raise ValueError
  | (y, m, d, rest) :: _ =>
      match rest with
      | EmptyString => datetime_new y m d 0 0 0 0
      | String _ _ => Raise ValueError
      end
  end.

(** *** Vocabulary of the text proofs *)

(** The text of the calendar day with ordinal [n]. *)
Definition day_text (n : Z) : string := strftime (combine_fromordinal n 0 0 0 0).

(** [str] of the year has four digits and reads back as the year; so it is
    from year 1000 on. *)
Definition year_text_ok (y : Z) : bool :=
  match str_int y with
  | String a (String b (String c (String d EmptyString))) =>
      is_digit a && is_digit b && is_digit c && is_digit d
      && (1000 * digit_val a + 100 * digit_val b + 10 * digit_val c
          + digit_val d =? y)
  | _ => false
  end.

(** What [strftime] prints after the year. *)
Definition tail_text (m d : Z) : string :=
  ("-" ++ zfill 2 (str_int m) ++ "-" ++ zfill 2 (str_int d))%string.

(** It reads back as the month and the day, with nothing left over. *)
Definition tail_text_ok (m d : Z) : bool :=
  match re_tail (tail_text m d) with
  | (m', d', EmptyString) :: _ => (m' =? m) && (d' =? d)
  | _ => false
  end.

End Text.

(** ** Numbers: [round] and [max] *)

(** [round(x)] of a float to an integer: the nearest one, and the even one
    of the two when [x] is halfway. *)
Definition py_round (x : R) : Z :=
  let f := Int_part x in
  let r := (x - IZR f)%R in
  if Rlt_dec r (1 / 2) then f
  else if Rlt_dec (1 / 2) r then f + 1
  else if Z.even f then f else f + 1.

(** [max(a, b)]: the first argument unless the second is greater. *)
Definition py_max (a b : R) : R := if Rlt_dec a b then b else a.

(** ** The [random] module as an interface

    A generator state and the three operations the handler calls.  [sample]
    is given the size [n] of the population and the number [k] of elements
    wanted and answers with positions in the population. *)

Class RandomSource : Type := {
  gen : Type;
  gen_random : gen -> R * gen;
  gen_randint : Z -> Z -> gen -> Z * gen;
  gen_sample : nat -> nat -> gen -> list nat * gen
}.

(** What the module documents of them: [random()] is in [[0, 1)],
    [randint(a, b)] is in [[a, b]], and [sample] picks [k] pairwise different
    positions of the population. *)
Class RandomSourceLaws (RS : RandomSource) : Prop := {
  gen_random_range : forall g, (0 <= fst (gen_random g) < 1)%R;
  gen_randint_range : forall a b g,
    a <= b -> a <= fst (gen_randint a b g) <= b;
  gen_sample_spec : forall n k g,
    (k <= n)%nat ->
    List.length (fst (gen_sample n k g)) = k
    /\ NoDup (fst (gen_sample n k g))
    /\ Forall (fun j => (j < n)%nat) (fst (gen_sample n k g))
}.

(** ** The response *)

Record ts_point : Type := mk_point {
  date : string;
  count : Z;
  anxiety : R;
  sadness : R;
  joy : R
}.

Record topic_trend : Type := mk_topic {
  topic : string;
  changePct : R;
  mentions : Z
}.

Record emotion_share : Type := mk_emotion {
  name : string;
  value : R
}.

Record graph_node : Type := mk_node {
  node_id : string;
  degree : Z;
  sentiment : R
}.

Record graph_link : Type := mk_link {
  source : string;
  target : string;
  link_value : R
}.

Record graph_data : Type := mk_graph {
  nodes : list graph_node;
  links : list graph_link
}.

Record meta_data : Type := mk_meta {
  meta_from : string;
  meta_to : string;
  meta_platform : string
}.

Record response : Type := mk_response {
  timeSeries : list ts_point;
  topics : list topic_trend;
  emotions : list emotion_share;
  graph : graph_data;
  meta : meta_data
}.

(** ** The request *)

(** [request.args]: the query string as (key, value) pairs, in order. *)
Definition query_args : Type := list (string * string).

(** The first value sent for [key], if any. *)
Fixpoint supplied (key : string) (args : query_args) : option string :=
  match args with
  | [] => None
  | (k, v) :: rest => if String.eqb k key then Some v else supplied key rest
  end.

(** [request.args.get(key, default)] *)
Definition args_get (args : query_args) (key default : string) : string :=
  match supplied key args with
  | Some v => v
  | None => default
  end.

(** The fixed lists of the response. *)
Definition static_topics : list topic_trend :=
  [ mk_topic "exam stress" 0.22 420;
    mk_topic "job market anxiety" 0.12 320;
    mk_topic "sleep issues" 0.08 210;
    mk_topic "financial pressure" 0.05 150 ].

Definition static_emotions : list emotion_share :=
  [ mk_emotion "sadness" 0.38;
    mk_emotion "anger" 0.12;
    mk_emotion "fear" 0.18;
    mk_emotion "joy" 0.10;
    mk_emotion "neutral" 0.22 ].

(** ** The handler *)

Section Handler.
Context {RS : RandomSource}.
Import Datetime Text.

(** What the handler reads besides the request: the system clock, as the
    sequence of its successive readings, and the process-wide generator. *)
Record world : Type := mk_world {
  clock : nat -> datetime;
  clock_reads : nat;
  rng : gen
}.

(** Computations that read and advance the world and may raise. *)
Definition M (A : Type) : Type := world -> result A * world.

Definition ret {A} (a : A) : M A := fun w => (Ok a, w).

Definition bind {A B} (m : M A) (k : A -> M B) : M B := fun w =>
  match m w with
  | (Ok a, w') => k a w'
  | (Raise e, w') => (Raise e, w')
  end.

Definition lift {A} (r : result A) : M A := fun w => (r, w).

Definition raise {A} (e : exn) : M A := fun w => (Raise e, w).

Notation "x <- m ;; k" := (bind m (fun x => k))
  (at level 61, m at next level, right associativity).

Fixpoint mapM {A B} (f : A -> M B) (l : list A) : M (list B) :=
  match l with
  | [] => ret []
  | x :: xs => y <- f x ;; ys <- mapM f xs ;; ret (y :: ys)
  end.

(** [datetime.now()] *)
Definition datetime_now : M datetime := fun w =>
  (Ok (clock w (clock_reads w)),
   mk_world (clock w) (S (clock_reads w)) (rng w)).

(** [random.random()] *)
Definition random_random : M R := fun w =>
  let '(x, g) := gen_random (rng w) in
  (Ok x, mk_world (clock w) (clock_reads w) g).

(** [random.randint(a, b)] *)
Definition random_randint (a b : Z) : M Z := fun w =>
  if a <=? b then
    let '(x, g) := gen_randint a b (rng w) in
    (Ok x, mk_world (clock w) (clock_reads w) g)
  else (Raise ValueError, w).

(** [random.sample(population, k)] *)
Definition random_sample {A} (population : list A) (k : nat) : M (list A) :=
  fun w =>
  if (k <=? List.length population)%nat then
    let '(js, g) := gen_sample (List.length population) k (rng w) in
    (Ok (flat_map (fun j => match nth_error population j with
                            | Some x => [x]
                            | None => []
                            end) js),
     mk_world (clock w) (clock_reads w) g)
  else (Raise ValueError, w).

(** One turn of the time-series loop, for the offset [i]. *)
Definition time_series_point (start : datetime) (i : Z) : M ts_point :=
  td <- lift (timedelta_of_days i) ;;
  d <- lift (datetime_add start td) ;;
  u1 <- random_random ;;
  let base := py_round (200 + 40 * sin (IZR i / 6) + u1 * 60)%R in
  u2 <- random_random ;;
  let anxiety := py_max 0 ((sin (IZR i / 7 + 0.5) + u2 * 0.6) / 2)%R in
  u3 <- random_random ;;
  let sadness := py_max 0 ((cos (IZR i / 8) + u3 * 0.6) / 2)%R in
  u4 <- random_random ;;
  let joy := py_max 0 ((cos (IZR i / 5 + 1) + u4 * 0.6) / 2)%R in
  ret (mk_point (strftime d) base anxiety sadness joy).

(** The id [f"user_{i}"]. *)
Definition user_id (i : Z) : string := ("user_" ++ str_int i)%string.

(** One turn of the node loop. *)
Definition make_node (i : Z) : M graph_node :=
  dg <- random_randint 1 10 ;;
  u <- random_random ;;
  ret (mk_node (user_id i) dg ((u - 0.5) * 1.6)%R).

(** One turn of the link loop. *)
Definition make_link (nodes : list graph_node) (i : Z) : M graph_link :=
  ab <- random_sample nodes 2 ;;
  match ab with
  | [a; b] =>
      u <- random_random ;;
      ret (mk_link (node_id a) (node_id b) u)
  | _ => raise ValueError
  end.

Definition get_dashboard (args : query_args) : M response :=
  now1 <- datetime_now ;;
  td30 <- lift (timedelta_of_days 30) ;;
  from_default <- lift (datetime_sub_timedelta now1 td30) ;;
  let start_date := args_get args "from" (strftime from_default) in
  now2 <- datetime_now ;;
  let end_date := args_get args "to" (strftime now2) in
  let platform := args_get args "platform" "twitter" in
  start <- lift (strptime start_date) ;;
  end_ <- lift (strptime end_date) ;;
  delta <- lift (datetime_sub end_ start) ;;
  let days := td_days delta + 1 in
  time_series <- mapM (time_series_point start) (range days) ;;
  let topics :=
    [ mk_topic "exam stress" 0.22 420;
      mk_topic "job market anxiety" 0.12 320;
      mk_topic "sleep issues" 0.08 210;
      mk_topic "financial pressure" 0.05 150 ] in
  let emotions :=
    [ mk_emotion "sadness" 0.38;
      mk_emotion "anger" 0.12;
      mk_emotion "fear" 0.18;
      mk_emotion "joy" 0.10;
      mk_emotion "neutral" 0.22 ] in
  nodes <- mapM make_node (range 40) ;;
  links <- mapM (make_link nodes) (range 80) ;;
  ret (mk_response time_series topics emotions (mk_graph nodes links)
                   (mk_meta start_date end_date platform)).

(** What Flask answers for the outcome of a view: the body with status 200,
    or, for an exception no handler is registered for, status 500. *)
Definition http_status (outcome : result response) : Z :=
  match outcome with
  | Ok _ => 200
  | Raise _ => 500
  end.

(** *** Vocabulary of the handler proofs *)

(** The two clock readings of a request and the world after them. *)
Definition now1 (w : world) : datetime := clock w (clock_reads w).
Definition now2 (w : world) : datetime := clock w (S (clock_reads w)).
Definition after_clock (w : world) : world :=
  mk_world (clock w) (S (S (clock_reads w))) (rng w).

(** The default of [from], which the handler computes on every request. *)
Definition default_from (w : world) : result datetime :=
  datetime_sub_timedelta (now1 w) (mk_timedelta 30 0 0).

(** The handler from the time-series loop on, once both dates are parsed. *)
Definition generate (start_date end_date platform : string)
           (start end_ : datetime) : M response :=
  bind (mapM (time_series_point start)
             (range (toordinal end_ - toordinal start + 1))) (fun ts =>
  bind (mapM make_node (range 40)) (fun ns =>
  bind (mapM (make_link ns) (range 80)) (fun ls =>
  ret (mk_response ts static_topics static_emotions (mk_graph ns ls)
                   (mk_meta start_date end_date platform))))).

(** What the node loop guarantees of the node made at turn [i]. *)
Definition node_ok (i : Z) (n : graph_node) : Prop :=
  node_id n = user_id i /\ 1 <= degree n <= 10
  /\ (-0.8 <= sentiment n <= 0.8)%R.

(** What the link loop guarantees of a link between nodes of [ns]. *)
Definition link_ok (ns : list graph_node) (l : graph_link) : Prop :=
  In (source l) (map node_id ns) /\ In (target l) (map node_id ns)
  /\ source l <> target l /\ (0 <= link_value l < 1)%R.

End Handler.

(** ** A generator to run the handler on *)

Module Lcg.

(** A 64-bit linear congruential generator. *)
Definition next (s : Z) : Z :=
  (s * 6364136223846793005 + 1442695040888963407) mod 18446744073709551616.

Definition random (s : Z) : R * Z :=
  ((IZR (s mod 9007199254740992) / IZR 9007199254740992)%R, next s).

Definition randint (a b s : Z) : Z * Z :=
  (a + s mod (b - a + 1), next s).

(** A position of [0 .. n-1], going round from [r]. *)
Definition rotate (n r i : nat) : nat :=
  if (r + i <? n)%nat then (r + i)%nat else (r + i - n)%nat.

Definition sample (n k : nat) (s : Z) : list nat * Z :=
  (map (rotate n (Z.to_nat (s mod Z.of_nat n))) (seq 0 k), next s).

#[global] Instance source : RandomSource := {|
  gen := Z;
  gen_random := random;
  gen_randint := randint;
  gen_sample := sample
|}.

End Lcg.

(** ** Concrete requests *)

Definition clock_noon : nat -> datetime :=
  fun _ => mk_datetime 2024 6 15 12 30 0 0.

Definition world_noon : world (RS := Lcg.source) :=
  mk_world (RS := Lcg.source) clock_noon 0 42.

(** The clock passes midnight between the two readings of the handler. *)
Definition clock_midnight : nat -> datetime := fun n =>
  match n with
  | O => mk_datetime 2024 1 31 23 59 59 999999
  | S _ => mk_datetime 2024 2 1 0 0 0 1
  end.

Definition world_midnight : world (RS := Lcg.source) :=
  mk_world (RS := Lcg.source) clock_midnight 0 42.

Definition args_three_days : query_args :=
  [("from", "2024-01-01"); ("to", "2024-01-03"); ("platform", "reddit")]%string.

Definition args_three_days_other : query_args :=
  [("platform", "mastodon"); ("to", "2024-01-03"); ("from", "2024-01-01")]%string.

Definition args_reversed : query_args :=
  [("from", "2024-01-03"); ("to", "2024-01-01")]%string.

Definition args_malformed : query_args :=
  [("from", "2024-13-45")]%string.

(** ** The root view and more vocabulary *)

(** [index]: the view of [/], a dict with the one key [status]. *)
Definition index {RS : RandomSource} : M (list (string * string)) :=
  ret [("status", "Mental Health Backend API Running")]%string.

(** A computation that leaves the clock as it found it. *)
Definition keeps_clock {RS : RandomSource} {A} (m : M A) : Prop :=
  forall w,
    clock (snd (m w)) = clock w /\ clock_reads (snd (m w)) = clock_reads w.

(** A computation that sees nothing of the world but the generator. *)
Definition clock_blind {RS : RandomSource} {A} (m : M A) : Prop :=
  forall w1 w2,
    rng w1 = rng w2 ->
    fst (m w1) = fst (m w2) /\ rng (snd (m w1)) = rng (snd (m w2)).

(** More concrete requests. *)

Definition clock_evening : nat -> datetime :=
  fun _ => mk_datetime 2031 12 31 23 0 0 0.

Definition world_evening : world (RS := Lcg.source) :=
  mk_world (RS := Lcg.source) clock_evening 7 42.

Definition clock_year_one : nat -> datetime :=
  fun _ => mk_datetime 1 1 15 8 0 0 0.

Definition world_year_one : world (RS := Lcg.source) :=
  mk_world (RS := Lcg.source) clock_year_one 0 42.

Definition args_all_days : query_args :=
  [("from", "0001-01-01"); ("to", "9999-12-31")]%string.

Definition args_bad_to : query_args :=
  [("from", "2024-01-01"); ("to", "yesterday")]%string.

Definition args_with_more : query_args :=
  [("page", "2"); ("from", "2024-01-01"); ("to", "2024-01-03");
   ("platform", "reddit"); ("from", "1999-12-31")]%string.

(** * Facts *)

(** ** The model on concrete values *)

Example ordinal_first_day : Calendar._ord2ymd 1 = (1, 1, 1).
Proof. reflexivity. Qed.

Example ordinal_last_day : Calendar._ord2ymd 3652059 = (9999, 12, 31).
Proof. reflexivity. Qed.

Example ordinal_leap_day : Calendar._ymd2ord 2024 2 29 = 738945.
Proof. reflexivity. Qed.

Example ordinal_end_of_leap_year : Calendar._ord2ymd 739251 = (2024, 12, 31).
Proof. reflexivity. Qed.

Example strptime_plain :
  Text.strptime "2024-01-03" = Ok (mk_datetime 2024 1 3 0 0 0 0).
Proof. reflexivity. Qed.

Example strptime_without_zeros :
  Text.strptime "2024-1-3" = Ok (mk_datetime 2024 1 3 0 0 0 0).
Proof. reflexivity. Qed.

Example strptime_no_such_day : Text.strptime "2023-02-29" = Raise ValueError.
Proof. reflexivity. Qed.

Example strptime_text_left_over : Text.strptime "2024-01-031" = Raise ValueError.
Proof. reflexivity. Qed.

Example strptime_year_zero : Text.strptime "0000-01-01" = Raise ValueError.
Proof. reflexivity. Qed.

Example strftime_four_digit_year :
  Text.strftime (mk_datetime 2024 6 5 4 3 2 1) = "2024-06-05"%string.
Proof. reflexivity. Qed.

Example strftime_three_digit_year :
  Text.strftime (mk_datetime 987 6 5 4 3 2 1) = "987-06-05"%string.
Proof. reflexivity. Qed.

Example strftime_year_one :
  Text.strftime (mk_datetime 1 1 1 0 0 0 0) = "1-01-01"%string.
Proof. reflexivity. Qed.

Example strptime_three_digit_year :
  Text.strptime "987-06-05" = Raise ValueError.
Proof. reflexivity. Qed.

Example strptime_padded_year :
  Text.strptime "0987-06-05" = Ok (mk_datetime 987 6 5 0 0 0 0).
Proof. reflexivity. Qed.

Example minus_30_days :
  Datetime.datetime_sub_timedelta (mk_datetime 2024 3 1 8 0 0 0) (mk_timedelta 30 0 0)
  = Ok (mk_datetime 2024 1 31 8 0 0 0).
Proof. reflexivity. Qed.

Example minus_30_days_too_early :
  Datetime.datetime_sub_timedelta (mk_datetime 1 1 15 8 0 0 0) (mk_timedelta 30 0 0)
  = Raise OverflowError.
Proof. reflexivity. Qed.

Example user_id_39 : user_id 39 = "user_39"%string.
Proof. reflexivity. Qed.

Example args_get_first_wins :
  args_get [("to", "a"); ("to", "b")]%string "to" "c" = "a"%string.
Proof. reflexivity. Qed.


(** ** The calendar *)

Ltac bool_props :=
  repeat match goal with
  | H : _ && _ = true |- _ => apply andb_true_iff in H; destruct H
  | H : _ || _ = false |- _ => apply orb_false_iff in H; destruct H
  | H : negb _ = true |- _ => apply negb_true_iff in H
  | H : negb _ = false |- _ => apply negb_false_iff in H
  | H : (_ =? _) = true |- _ => apply Z.eqb_eq in H
  | H : (_ =? _) = false |- _ => apply Z.eqb_neq in H
  | H : (_ <=? _) = true |- _ => apply Z.leb_le in H
  | H : (_ <=? _) = false |- _ => apply Z.leb_gt in H
  | H : (_ <? _) = true |- _ => apply Z.ltb_lt in H
  | H : (_ <? _) = false |- _ => apply Z.ltb_ge in H
  end.

Lemma range_length n : List.length (range n) = Z.to_nat n.
Proof. unfold range. rewrite length_map, length_seq. reflexivity. Qed.

Lemma range_In i n : In i (range n) <-> 0 <= i < n.
Proof.
  unfold range. rewrite in_map_iff. split.
  - intros (k & <- & Hk). apply in_seq in Hk. lia.
  - intros H. exists (Z.to_nat i). split; [lia|]. apply in_seq. lia.
Qed.

Lemma range_nonpos n : n <= 0 -> range n = [].
Proof.
  intros H. unfold range. replace (Z.to_nat n) with 0%nat by lia. reflexivity.
Qed.

Lemma range_nth i n :
  0 <= i < n -> nth_error (range n) (Z.to_nat i) = Some i.
Proof.
  intros H. unfold range. rewrite nth_error_map.
  rewrite (nth_error_nth' _ 0%nat) by (rewrite length_seq; lia).
  rewrite seq_nth by lia. cbn. f_equal. lia.
Qed.

Lemma range_nth_error n j x :
  nth_error (range n) j = Some x -> x = Z.of_nat j /\ 0 <= x < n.
Proof.
  intros H. pose proof (nth_error_In _ _ H) as Hin. apply range_In in Hin.
  assert (Hj : (j < List.length (range n))%nat)
    by (apply nth_error_Some; congruence).
  rewrite range_length in Hj.
  rewrite <- (Nat2Z.id j), range_nth in H by lia.
  injection H as <-. split; [reflexivity | lia].
Qed.

(** A check that passes on all of [range k] holds below [k]. *)
Lemma forallb_range (f : Z -> bool) (k : Z) :
  forallb f (range k) = true -> forall n, 0 <= n < k -> f n = true.
Proof.
  intros H n Hn. rewrite forallb_forall in H. apply H, range_In, Hn.
Qed.

Module CalendarFacts.
Import Calendar.

Lemma days_before_year_succ y :
  _days_before_year (y + 1) = _days_before_year y + 365 + bool_int (_is_leap y).
Proof.
  unfold _days_before_year, _is_leap, bool_int.
  replace (y + 1 - 1) with y by lia.
  destruct (y mod 4 =? 0) eqn:E4, (y mod 100 =? 0) eqn:E100,
           (y mod 400 =? 0) eqn:E400; simpl; bool_props;
    Z.to_euclidean_division_equations; lia.
Qed.

Lemma days_before_year_mono y1 y2 :
  y1 <= y2 -> _days_before_year y1 <= _days_before_year y2.
Proof.
  intros H. unfold _days_before_year.
  Z.to_euclidean_division_equations; lia.
Qed.

Lemma month_day_of_ok leap n :
  0 <= n < 365 + bool_int leap -> month_day_ok leap n = true.
Proof.
  intros Hn. destruct leap; simpl in Hn.
  - apply (forallb_range (month_day_ok true) 366); [vm_compute; reflexivity | lia].
  - apply (forallb_range (month_day_ok false) 365); [vm_compute; reflexivity | lia].
Qed.

(** The leap flag [_ord2ymd] derives from the digits of the year. *)
Lemma leap_flag q n100 n4 n1 :
  0 <= n100 <= 3 -> 0 <= n4 <= 24 -> 0 <= n1 <= 3 ->
  _is_leap (q * 400 + 1 + (n100 * 100 + n4 * 4 + n1))
  = (n1 =? 3) && (negb (n4 =? 24) || (n100 =? 3)).
Proof.
  intros H100 H4 H1. unfold _is_leap.
  set (y := q * 400 + 1 + (n100 * 100 + n4 * 4 + n1)).
  assert (E4 : y mod 4 = (n1 + 1) mod 4).
  { unfold y. replace (q * 400 + 1 + (n100 * 100 + n4 * 4 + n1))
      with (n1 + 1 + (q * 100 + n100 * 25 + n4) * 4) by lia.
    apply Z.mod_add; lia. }
  assert (E100 : y mod 100 = (n4 * 4 + n1 + 1) mod 100).
  { unfold y. replace (q * 400 + 1 + (n100 * 100 + n4 * 4 + n1))
      with (n4 * 4 + n1 + 1 + (q * 4 + n100) * 100) by lia.
    apply Z.mod_add; lia. }
  assert (E400 : y mod 400 = (n100 * 100 + n4 * 4 + n1 + 1) mod 400).
  { unfold y. replace (q * 400 + 1 + (n100 * 100 + n4 * 4 + n1))
      with (n100 * 100 + n4 * 4 + n1 + 1 + q * 400) by lia.
    apply Z.mod_add; lia. }
  rewrite E4, E100, E400.
  destruct (n1 =? 3) eqn:B1, (n4 =? 24) eqn:B4, (n100 =? 3) eqn:B100;
    bool_props; subst; simpl;
    repeat match goal with
    | |- context [?a mod ?b =? 0] =>
        let E := fresh "E" in
        destruct (a mod b =? 0) eqn:E; bool_props
    end; simpl; try reflexivity; exfalso;
    Z.to_euclidean_division_equations; lia.
Qed.

(** The days before a year, from the digits of the year. *)
Lemma days_before_year_digits q n100 n4 n1 :
  0 <= n100 <= 3 -> 0 <= n4 <= 24 -> 0 <= n1 <= 3 ->
  _days_before_year (q * 400 + 1 + (n100 * 100 + n4 * 4 + n1))
  = q * _DI400Y + n100 * _DI100Y + n4 * _DI4Y + n1 * 365.
Proof.
  intros H100 H4 H1. unfold _days_before_year, _DI400Y, _DI100Y, _DI4Y.
  Z.to_euclidean_division_equations; lia.
Qed.

(** The chain of divisions at the start of [_ord2ymd]. *)
Lemma divmod_chain N q r400 n100 r100 n4 r4 n1 r :
  0 <= N <= _MAXORDINAL - 1 ->
  q = N / _DI400Y -> r400 = N mod _DI400Y ->
  n100 = r400 / _DI100Y -> r100 = r400 mod _DI100Y ->
  n4 = r100 / _DI4Y -> r4 = r100 mod _DI4Y ->
  n1 = r4 / 365 -> r = r4 mod 365 ->
  N = q * _DI400Y + n100 * _DI100Y + n4 * _DI4Y + n1 * 365 + r
  /\ 0 <= q <= 24 /\ 0 <= n100 <= 4 /\ 0 <= n4 <= 24
  /\ 0 <= n1 <= 4 /\ 0 <= r < 365
  /\ (n100 = 4 -> n4 = 0 /\ n1 = 0 /\ r = 0)
  /\ (n1 = 4 -> r = 0 /\ n4 <= 23)
  /\ (q = 24 -> n100 * _DI100Y + n4 * _DI4Y + n1 * 365 + r <= 145730).
Proof.
  unfold _MAXORDINAL, _DI400Y, _DI100Y, _DI4Y.
  intros HN Eq Er400 En100 Er100 En4 Er4 En1 Er.
  pose proof (Z.div_mod N 146097 ltac:(lia)) as E1.
  pose proof (Z.mod_pos_bound N 146097 ltac:(lia)) as B1.
  pose proof (Z.div_mod r400 36524 ltac:(lia)) as E2.
  pose proof (Z.mod_pos_bound r400 36524 ltac:(lia)) as B2.
  pose proof (Z.div_mod r100 1461 ltac:(lia)) as E3.
  pose proof (Z.mod_pos_bound r100 1461 ltac:(lia)) as B3.
  pose proof (Z.div_mod r4 365 ltac:(lia)) as E4.
  pose proof (Z.mod_pos_bound r4 365 ltac:(lia)) as B4.
  rewrite <- Eq, <- Er400 in *. rewrite <- En100, <- Er100 in *.
  rewrite <- En4, <- Er4 in *. rewrite <- En1, <- Er in *.
  clear Eq Er400 En100 Er100 En4 Er4 En1 Er.
  repeat split; lia.
Qed.

(** [_ord2ymd] answers with a calendar date, the one whose ordinal it was
    given. *)
Lemma ord2ymd_spec n :
  1 <= n <= _MAXORDINAL ->
  let '(y, m, d) := _ord2ymd n in
  valid_ymd y m d = true /\ _ymd2ord y m d = n.
Proof.
  intros Hn. unfold _ord2ymd.
  assert (HN0 : 0 <= n - 1 <= _MAXORDINAL - 1) by lia.
  cbv zeta.
  remember (n - 1) as N eqn:EN.
  remember (N / _DI400Y) as q eqn:Eq.
  remember (N mod _DI400Y) as r400 eqn:Er400.
  remember (r400 / _DI100Y) as n100 eqn:En100.
  remember (r400 mod _DI100Y) as r100 eqn:Er100.
  remember (r100 / _DI4Y) as n4 eqn:En4.
  remember (r100 mod _DI4Y) as r4 eqn:Er4.
  remember (r4 / 365) as n1 eqn:En1.
  remember (r4 mod 365) as r eqn:Er.
  destruct (divmod_chain N q r400 n100 r100 n4 r4 n1 r HN0 Eq Er400 En100
                         Er100 En4 Er4 En1 Er)
    as (HN & Hq & H100 & H4 & H1 & Hr & S100 & S1 & Hmax).
  clear Eq Er400 En100 Er100 En4 Er4 En1 Er r400 r100 r4.
  assert (En : n = N + 1) by lia. clear EN HN0.
  destruct ((n1 =? 4) || (n100 =? 4)) eqn:Special.
  - (* the last day of a leap year *)
    assert (Hy : exists a b,
               0 <= a <= 3 /\ 0 <= b <= 24 /\ (b <> 24 \/ a = 3)
               /\ q * 400 + 1 + (n100 * 100 + n4 * 4 + n1) - 1
                  = q * 400 + 1 + (a * 100 + b * 4 + 3)
               /\ N + 1 = q * _DI400Y + a * _DI100Y + b * _DI4Y + 3 * 365 + 366).
    { apply orb_true_iff in Special.
      destruct (Z.eq_dec n100 4) as [E100|E100].
      - destruct (S100 E100) as (-> & -> & ->). subst n100.
        exists 3, 24. unfold _DI400Y, _DI100Y, _DI4Y in *. lia.
      - assert (E1 : n1 = 4) by (destruct Special; bool_props; lia).
        destruct (S1 E1) as [-> Hn4]. subst n1.
        exists n100, n4. unfold _DI400Y, _DI100Y, _DI4Y in *. lia. }
    destruct Hy as (a & b & Ha & Hb & Hab & -> & Hord).
    assert (L : _is_leap (q * 400 + 1 + (a * 100 + b * 4 + 3)) = true).
    { rewrite leap_flag by lia. simpl.
      destruct (b =? 24) eqn:Eb, (a =? 3) eqn:Ea; bool_props; simpl; lia. }
    pose proof (days_before_year_digits q a b 3 Ha Hb ltac:(lia)) as Hdby.
    set (y := q * 400 + 1 + (a * 100 + b * 4 + 3)) in *.
    unfold valid_ymd, _ymd2ord, _days_in_month, _days_before_month.
    rewrite L. change (table_get _DAYS_IN_MONTH 12) with 31.
    change (table_get _DAYS_BEFORE_MONTH 12) with 334.
    unfold MINYEAR, MAXYEAR. simpl.
    split.
    + repeat (apply andb_true_intro; split); apply Z.leb_le;
        unfold y, _DI400Y, _DI100Y, _DI4Y in *; lia.
    + lia.
  - bool_props.
    assert (H100' : 0 <= n100 <= 3) by lia.
    assert (H1' : 0 <= n1 <= 3) by lia.
    rewrite <- (leap_flag q n100 n4 n1) by assumption.
    set (y := q * 400 + 1 + (n100 * 100 + n4 * 4 + n1)).
    pose proof (days_before_year_digits q n100 n4 n1 H100' H4 H1') as Hdby.
    fold y in Hdby.
    pose proof (month_day_of_ok (_is_leap y) r) as Hmd.
    unfold month_day_ok in Hmd.
    destruct (month_day_of (_is_leap y) r) as [m d].
    assert (Hr' : 0 <= r < 365 + bool_int (_is_leap y))
      by (destruct (_is_leap y); simpl; lia).
    specialize (Hmd Hr'). bool_props.
    unfold valid_ymd, _ymd2ord, _days_in_month, _days_before_month, MINYEAR, MAXYEAR.
    unfold dim, dbm in *.
    split.
    + repeat (apply andb_true_intro; split); try (apply Z.leb_le); try lia;
        unfold y, _DI400Y, _DI100Y, _DI4Y in *; lia.
    + lia.
Qed.

Lemma months_tile_ok leap : months_tile leap = true.
Proof. destruct leap; vm_compute; reflexivity. Qed.

Lemma in_months m : 0 <= m <= 12 -> In m months.
Proof. intros H. apply range_In. lia. Qed.

Lemma month_bounds leap m :
  1 <= m <= 12 ->
  0 <= dbm leap m /\ 1 <= dim leap m <= 31
  /\ dbm leap m + dim leap m <= 365 + bool_int leap.
Proof.
  intros Hm. pose proof (months_tile_ok leap) as T.
  unfold months_tile in T. rewrite forallb_forall in T.
  specialize (T m (in_months m ltac:(lia))).
  apply orb_true_iff in T. destruct T as [T|T]; bool_props; lia.
Qed.

Lemma month_order leap m m' :
  1 <= m -> m < m' <= 12 -> dbm leap m + dim leap m <= dbm leap m'.
Proof.
  intros Hm Hm'. pose proof (months_tile_ok leap) as T.
  unfold months_tile in T. rewrite forallb_forall in T.
  specialize (T m (in_months m ltac:(lia))).
  apply orb_true_iff in T. destruct T as [T|T]; bool_props; [lia|].
  match goal with H : forallb _ months = true |- _ =>
    rewrite forallb_forall in H; specialize (H m' (in_months m' ltac:(lia)));
    apply orb_true_iff in H; destruct H; bool_props; lia end.
Qed.

Lemma valid_ymd_iff y m d :
  valid_ymd y m d = true <->
  1 <= y <= 9999 /\ 1 <= m <= 12 /\ 1 <= d <= dim (_is_leap y) m.
Proof.
  unfold valid_ymd, MINYEAR, MAXYEAR, _days_in_month, dim.
  rewrite !andb_true_iff, !Z.leb_le. tauto.
Qed.

Lemma ymd2ord_range y m d :
  valid_ymd y m d = true -> 1 <= _ymd2ord y m d <= _MAXORDINAL.
Proof.
  rewrite valid_ymd_iff. intros (Hy & Hm & Hd).
  pose proof (month_bounds (_is_leap y) m Hm) as (B1 & B2 & B3).
  pose proof (days_before_year_succ y) as Hs.
  pose proof (days_before_year_mono 1 y ltac:(lia)) as Hlo.
  pose proof (days_before_year_mono (y + 1) 10000 ltac:(lia)) as Hhi.
  change (_days_before_year 1) with 0 in Hlo.
  change (_days_before_year 10000) with 3652059 in Hhi.
  unfold _ymd2ord, _days_before_month, _MAXORDINAL. fold (dbm (_is_leap y) m).
  lia.
Qed.

(** The dates from 1000-01-01 on are those whose year has four digits. *)
Lemma four_digit_year y m d :
  valid_ymd y m d = true ->
  (1000 <= y <-> first_four_digit_day <= _ymd2ord y m d).
Proof.
  rewrite valid_ymd_iff. intros (Hy & Hm & Hd).
  pose proof (month_bounds (_is_leap y) m Hm) as (B1 & B2 & B3).
  pose proof (days_before_year_succ y) as Hs.
  change first_four_digit_day with (_days_before_year 1000 + 1).
  unfold _ymd2ord, _days_before_month. fold (dbm (_is_leap y) m).
  split; intros H.
  - pose proof (days_before_year_mono 1000 y H). lia.
  - destruct (Z_lt_le_dec y 1000) as [L|L]; [|exact L].
    pose proof (days_before_year_mono (y + 1) 1000 ltac:(lia)). lia.
Qed.

(** Different calendar dates have different ordinals. *)
Lemma ymd2ord_inj y1 m1 d1 y2 m2 d2 :
  valid_ymd y1 m1 d1 = true -> valid_ymd y2 m2 d2 = true ->
  _ymd2ord y1 m1 d1 = _ymd2ord y2 m2 d2 ->
  y1 = y2 /\ m1 = m2 /\ d1 = d2.
Proof.
  rewrite !valid_ymd_iff. intros (Hy1 & Hm1 & Hd1) (Hy2 & Hm2 & Hd2).
  unfold _ymd2ord, _days_before_month.
  fold (dbm (_is_leap y1) m1). fold (dbm (_is_leap y2) m2).
  intros E.
  pose proof (month_bounds (_is_leap y1) m1 Hm1) as (A1 & A2 & A3).
  pose proof (month_bounds (_is_leap y2) m2 Hm2) as (B1 & B2 & B3).
  pose proof (days_before_year_succ y1) as S1.
  pose proof (days_before_year_succ y2) as S2.
  assert (Ey : y1 = y2).
  { destruct (Z.lt_trichotomy y1 y2) as [L|[L|L]]; [|exact L|].
    - pose proof (days_before_year_mono (y1 + 1) y2 ltac:(lia)). lia.
    - pose proof (days_before_year_mono (y2 + 1) y1 ltac:(lia)). lia. }
  subst y2. split; [reflexivity|].
  assert (Em : m1 = m2).
  { destruct (Z.lt_trichotomy m1 m2) as [L|[L|L]]; [|exact L|].
    - pose proof (month_order (_is_leap y1) m1 m2 ltac:(lia) ltac:(lia)). lia.
    - pose proof (month_order (_is_leap y1) m2 m1 ltac:(lia) ltac:(lia)). lia. }
  subst m2. split; [reflexivity|lia].
Qed.

(** [_ord2ymd] undoes [_ymd2ord] on calendar dates. *)
Lemma ord2ymd_ymd2ord y m d :
  valid_ymd y m d = true -> _ord2ymd (_ymd2ord y m d) = (y, m, d).
Proof.
  intros V. pose proof (ymd2ord_range y m d V) as Hr.
  pose proof (ord2ymd_spec _ Hr) as Hs.
  destruct (_ord2ymd (_ymd2ord y m d)) as [[y' m'] d'].
  destruct Hs as [V' E].
  destruct (ymd2ord_inj _ _ _ _ _ _ V' V E) as (-> & -> & ->).
  reflexivity.
Qed.

End CalendarFacts.

(** ** Printing and parsing dates *)

Module TextFacts.
Import Calendar CalendarFacts Datetime Text.

Lemma year_text y : 1000 <= y <= 9999 -> year_text_ok y = true.
Proof.
  intros H.
  assert (T : forallb (fun y => (y <? 1000) || year_text_ok y) (range 10000) = true)
    by (vm_compute; reflexivity).
  pose proof (forallb_range _ 10000 T y ltac:(lia)) as T1. cbv beta in T1.
  apply orb_true_iff in T1. destruct T1 as [T1|T1]; [bool_props; lia | exact T1].
Qed.

Lemma re_Y_year y rest :
  1000 <= y <= 9999 -> re_Y (str_int y ++ rest)%string = [(y, rest)].
Proof.
  intros H. pose proof (year_text y H) as T. unfold year_text_ok in T.
  destruct (str_int y) as [|a [|b [|c [|d [|? ?]]]]]; try discriminate.
  apply andb_true_iff in T. destruct T as [T E]. apply Z.eqb_eq in E.
  cbn [append]. unfold re_Y. rewrite T, E. reflexivity.
Qed.

Lemma tail_text_parses m d :
  1 <= m <= 12 -> 1 <= d <= 31 -> tail_text_ok m d = true.
Proof.
  intros Hm Hd.
  assert (T : forallb (fun m => forallb (fun d =>
                (m <? 1) || (d <? 1) || tail_text_ok m d) (range 32))
                      (range 13) = true)
    by (vm_compute; reflexivity).
  pose proof (forallb_range _ 13 T m ltac:(lia)) as T1. cbv beta in T1.
  pose proof (forallb_range _ 32 T1 d ltac:(lia)) as T2. cbv beta in T2.
  apply orb_true_iff in T2. destruct T2 as [T2|T2]; [|exact T2].
  apply orb_true_iff in T2. destruct T2; bool_props; lia.
Qed.

(** Parsing what [strftime] printed for a date in year 1000 or later gives
    the date back, at midnight. *)
Lemma strptime_strftime dt :
  valid_ymd (year dt) (month dt) (day dt) = true ->
  1000 <= year dt ->
  strptime (strftime dt) = Ok (mk_datetime (year dt) (month dt) (day dt) 0 0 0 0).
Proof.
  intros V Hk. pose proof V as V'. apply valid_ymd_iff in V'.
  destruct V' as (Hy & Hm & Hd).
  pose proof (month_bounds (_is_leap (year dt)) (month dt) Hm) as (_ & H31 & _).
  pose proof (tail_text_parses (month dt) (day dt) Hm ltac:(lia)) as T.
  unfold tail_text_ok in T.
  unfold strptime, re_date, strftime.
  rewrite re_Y_year by lia. cbn [flat_map]. rewrite app_nil_r.
  fold (tail_text (month dt) (day dt)).
  destruct (re_tail (tail_text (month dt) (day dt))) as [|[[m' d'] rest] l];
    [discriminate|].
  destruct rest; [|discriminate]. bool_props. subst m' d'.
  cbn [map]. unfold datetime_new, valid_datetime.
  cbn [year month day hour minute second microsecond].
  rewrite V. reflexivity.
Qed.

(** What [strftime] prints for such a date parses to a date with the same
    ordinal. *)
Lemma strftime_parses d :
  valid_ymd (year d) (month d) (day d) = true ->
  1000 <= year d ->
  exists dt, strptime (strftime d) = Ok dt /\ toordinal dt = toordinal d.
Proof.
  intros V Hk. exists (mk_datetime (year d) (month d) (day d) 0 0 0 0).
  split; [exact (strptime_strftime d V Hk) | reflexivity].
Qed.

(** [strptime] raises nothing but [ValueError]. *)
Lemma strptime_raises s e : strptime s = Raise e -> e = ValueError.
Proof.
  unfold strptime. destruct (re_date s) as [|[[[y m] d] rest] l];
    [intros H; injection H as <-; reflexivity|].
  destruct rest; [|intros H; injection H as <-; reflexivity].
  unfold datetime_new. destruct (valid_datetime _); [discriminate|].
  intros H; injection H as <-; reflexivity.
Qed.

(** What [strptime] returns is a date at midnight. *)
Lemma strptime_midnight s dt :
  strptime s = Ok dt -> valid_datetime dt = true /\ midnight dt.
Proof.
  unfold strptime. destruct (re_date s) as [|[[[y m] d] rest] l]; [discriminate|].
  destruct rest; [|discriminate]. unfold datetime_new.
  destruct (valid_datetime (mk_datetime y m d 0 0 0 0)) eqn:V; [|discriminate].
  intros E. injection E as <-. unfold midnight. auto.
Qed.

(** The ids of the 40 nodes are pairwise different. *)
Lemma user_id_inj i j :
  0 <= i < 40 -> 0 <= j < 40 -> user_id i = user_id j -> i = j.
Proof.
  intros Hi Hj E.
  assert (T : forallb (fun i => forallb (fun j =>
                (i =? j) || negb (String.eqb (user_id i) (user_id j)))
                (range 40)) (range 40) = true) by (vm_compute; reflexivity).
  pose proof (forallb_range _ 40 T i Hi) as T1. cbv beta in T1.
  pose proof (forallb_range _ 40 T1 j Hj) as T2. cbv beta in T2.
  apply orb_true_iff in T2. destruct T2 as [T2|T2]; [lia|].
  apply negb_true_iff in T2. apply String.eqb_neq in T2. contradiction.
Qed.

End TextFacts.

(** ** Arithmetic on dates *)

Module DatetimeFacts.
Import Calendar CalendarFacts Datetime Text TextFacts.

Lemma timedelta_of_days_ok n :
  Z.abs n <= 999999999 -> timedelta_of_days n = Ok (mk_timedelta n 0 0).
Proof.
  intros H. unfold timedelta_of_days, timedelta_new.
  change (0 + 0 / 1000000) with 0. change (0 mod 1000000) with 0.
  change (0 / 86400) with 0. change (0 mod 86400) with 0.
  rewrite Z.add_0_r.
  destruct (Z.abs n >? 999999999) eqn:E; [apply Z.gtb_lt in E; lia | reflexivity].
Qed.

Lemma valid_datetime_iff dt :
  valid_datetime dt = true <->
  valid_ymd (year dt) (month dt) (day dt) = true
  /\ 0 <= hour dt <= 23 /\ 0 <= minute dt <= 59 /\ 0 <= second dt <= 59
  /\ 0 <= microsecond dt <= 999999.
Proof.
  unfold valid_datetime. rewrite !andb_true_iff, !Z.leb_le. tauto.
Qed.

Lemma toordinal_range dt :
  valid_datetime dt = true -> 1 <= toordinal dt <= _MAXORDINAL.
Proof.
  intros V. apply valid_datetime_iff in V. apply ymd2ord_range, V.
Qed.

(** Adding whole days moves the date by that many ordinals and keeps the time
    of day. *)
Lemma datetime_add_days dt k :
  valid_datetime dt = true ->
  0 < toordinal dt + k <= _MAXORDINAL ->
  datetime_add dt (mk_timedelta k 0 0)
  = Ok (combine_fromordinal (toordinal dt + k) (hour dt) (minute dt)
                            (second dt) (microsecond dt)).
Proof.
  intros V Hk. pose proof (toordinal_range dt V) as Ho.
  apply valid_datetime_iff in V. destruct V as (_ & Hh & Hm & Hs & Hus).
  unfold datetime_add, timedelta_add, timedelta_new.
  unfold _MAXORDINAL in *.
  set (secs := hour dt * 3600 + minute dt * 60 + second dt).
  assert (E1 : microsecond dt / 1000000 = 0) by (apply Z.div_small; lia).
  assert (E2 : microsecond dt mod 1000000 = microsecond dt)
    by (apply Z.mod_small; lia).
  assert (E3 : secs / 86400 = 0) by (apply Z.div_small; unfold secs; lia).
  assert (E4 : secs mod 86400 = secs) by (apply Z.mod_small; unfold secs; lia).
  rewrite E1, E2, Z.add_0_r, E3, E4, Z.add_0_r.
  destruct (Z.abs (toordinal dt) >? 999999999) eqn:A1;
    [apply Z.gtb_lt in A1; lia|].
  cbn [result_bind td_days td_seconds td_microseconds].
  rewrite !Z.add_0_r, E1, E2, Z.add_0_r, E3, E4, Z.add_0_r.
  destruct (Z.abs (toordinal dt + k) >? 999999999) eqn:A2;
    [apply Z.gtb_lt in A2; lia|].
  cbn [result_bind td_days td_seconds td_microseconds].
  replace ((0 <? toordinal dt + k) && (toordinal dt + k <=? 3652059)) with true
    by (symmetry; apply andb_true_iff; split; [apply Z.ltb_lt | apply Z.leb_le]; lia).
  assert (F1 : secs / 3600 = hour dt)
    by (unfold secs; Z.to_euclidean_division_equations; lia).
  assert (F2 : secs mod 3600 = minute dt * 60 + second dt)
    by (unfold secs; Z.to_euclidean_division_equations; lia).
  rewrite F1, F2.
  assert (F3 : (minute dt * 60 + second dt) / 60 = minute dt)
    by (Z.to_euclidean_division_equations; lia).
  assert (F4 : (minute dt * 60 + second dt) mod 60 = second dt)
    by (Z.to_euclidean_division_equations; lia).
  rewrite F3, F4. reflexivity.
Qed.

(** [dt - timedelta(days=30)] *)
Lemma datetime_minus_30 dt :
  valid_datetime dt = true ->
  30 < toordinal dt ->
  datetime_sub_timedelta dt (mk_timedelta 30 0 0)
  = Ok (combine_fromordinal (toordinal dt - 30) (hour dt) (minute dt)
                            (second dt) (microsecond dt)).
Proof.
  intros V H. pose proof (toordinal_range dt V) as Ho.
  unfold datetime_sub_timedelta.
  change (timedelta_neg (mk_timedelta 30 0 0)) with (Ok (mk_timedelta (-30) 0 0)).
  cbn [result_bind]. rewrite datetime_add_days by (try assumption; lia).
  reflexivity.
Qed.

(** The difference of two midnights is a whole number of days. *)
Lemma datetime_sub_midnights a b :
  valid_datetime a = true -> valid_datetime b = true ->
  midnight a -> midnight b ->
  datetime_sub a b = Ok (mk_timedelta (toordinal a - toordinal b) 0 0).
Proof.
  intros Va Vb (A1 & A2 & A3 & A4) (B1 & B2 & B3 & B4).
  pose proof (toordinal_range a Va). pose proof (toordinal_range b Vb).
  unfold _MAXORDINAL in *.
  unfold datetime_sub. rewrite A1, A2, A3, A4, B1, B2, B3, B4.
  apply timedelta_of_days_ok. lia.
Qed.

(** The date rebuilt from an ordinal is a calendar date with that ordinal. *)
Lemma combine_fromordinal_ymd n hh mm ss us :
  1 <= n <= _MAXORDINAL ->
  valid_ymd (year (combine_fromordinal n hh mm ss us))
            (month (combine_fromordinal n hh mm ss us))
            (day (combine_fromordinal n hh mm ss us)) = true
  /\ toordinal (combine_fromordinal n hh mm ss us) = n.
Proof.
  intros H. pose proof (ord2ymd_spec n H) as S.
  unfold combine_fromordinal, toordinal.
  destruct (_ord2ymd n) as [[y m] d]. exact S.
Qed.

Lemma combine_toordinal dt hh mm ss us :
  valid_ymd (year dt) (month dt) (day dt) = true ->
  combine_fromordinal (toordinal dt) hh mm ss us
  = mk_datetime (year dt) (month dt) (day dt) hh mm ss us.
Proof.
  intros V. unfold combine_fromordinal, toordinal.
  rewrite ord2ymd_ymd2ord by assumption. reflexivity.
Qed.

(** A date rebuilt from an ordinal from 1000-01-01 on has a year of four
    digits. *)
Lemma combine_fromordinal_year n hh mm ss us :
  first_four_digit_day <= n <= _MAXORDINAL ->
  1000 <= year (combine_fromordinal n hh mm ss us).
Proof.
  intros H.
  assert (H1 : 1 <= n <= _MAXORDINAL)
    by (change first_four_digit_day with 364878 in H; lia).
  destruct (combine_fromordinal_ymd n hh mm ss us H1) as [V E].
  apply (four_digit_year _ _ _ V). unfold toordinal in E. rewrite E. lia.
Qed.

(** The text of a day from 1000-01-01 on parses to the day with that
    ordinal. *)
Lemma day_text_parses n :
  first_four_digit_day <= n <= _MAXORDINAL ->
  exists dt, strptime (day_text n) = Ok dt /\ toordinal dt = n.
Proof.
  intros H.
  assert (H1 : 1 <= n <= _MAXORDINAL)
    by (change first_four_digit_day with 364878 in H; lia).
  destruct (combine_fromordinal_ymd n 0 0 0 0 H1) as [V E].
  destruct (strftime_parses _ V (combine_fromordinal_year n 0 0 0 0 H))
    as (dt & Hp & Ho).
  exists dt. split; [exact Hp | congruence].
Qed.

Lemma day_text_toordinal dt :
  valid_datetime dt = true -> day_text (toordinal dt) = strftime dt.
Proof.
  intros V. apply valid_datetime_iff in V. destruct V as [V _].
  unfold day_text. rewrite combine_toordinal by exact V. reflexivity.
Qed.

End DatetimeFacts.

(** ** Bounds of the formulas *)

Module NumberFacts.
Local Open Scope R_scope.

Lemma Int_part_ge (x : R) (k : Z) : IZR k <= x -> (k <= Int_part x)%Z.
Proof.
  intros H. destruct (base_Int_part x) as [_ Hb].
  assert (L : IZR k < IZR (Int_part x + 1)) by (rewrite plus_IZR; lra).
  apply lt_IZR in L. lia.
Qed.

Lemma py_round_ge (x : R) (k : Z) : IZR k <= x -> (k <= py_round x)%Z.
Proof.
  intros H. pose proof (Int_part_ge x k H) as Hf. unfold py_round.
  destruct (Rlt_dec _ _); [exact Hf|].
  destruct (Rlt_dec _ _); [lia|].
  destruct (Z.even _); lia.
Qed.

Lemma py_max_0_bounds (x b : R) : 0 <= b -> x <= b -> 0 <= py_max 0 x <= b.
Proof.
  intros Hb Hx. unfold py_max. destruct (Rlt_dec 0 x); lra.
Qed.

(** 200 + 40 sin x is at least 160, and the noise adds to it. *)
Lemma count_formula_ge (i : Z) (u : R) :
  0 <= u < 1 -> IZR 160 <= 200 + 40 * sin (IZR i / 6) + u * 60.
Proof.
  intros Hu. pose proof (SIN_bound (IZR i / 6)) as [Hs _]. lra.
Qed.

Lemma anxiety_formula_le (i : Z) (u : R) :
  0 <= u < 1 -> (sin (IZR i / 7 + 0.5) + u * 0.6) / 2 <= 0.8.
Proof.
  intros Hu. pose proof (SIN_bound (IZR i / 7 + 0.5)) as [_ Hs]. lra.
Qed.

Lemma sadness_formula_le (i : Z) (u : R) :
  0 <= u < 1 -> (cos (IZR i / 8) + u * 0.6) / 2 <= 0.8.
Proof.
  intros Hu. pose proof (COS_bound (IZR i / 8)) as [_ Hs]. lra.
Qed.

Lemma joy_formula_le (i : Z) (u : R) :
  0 <= u < 1 -> (cos (IZR i / 5 + 1) + u * 0.6) / 2 <= 0.8.
Proof.
  intros Hu. pose proof (COS_bound (IZR i / 5 + 1)) as [_ Hs]. lra.
Qed.

Lemma sentiment_formula_bounds (u : R) :
  0 <= u < 1 -> -0.8 <= (u - 0.5) * 1.6 <= 0.8.
Proof. intros Hu. lra. Qed.

End NumberFacts.

(** ** The sample generator keeps the laws *)

Module LcgFacts.
Import Lcg.

Lemma random_range s : (0 <= fst (random s) < 1)%R.
Proof.
  unfold random. cbn [fst].
  pose proof (Z.mod_pos_bound s 9007199254740992 ltac:(lia)) as [H0 H1].
  apply IZR_le in H0. apply IZR_lt in H1.
  assert (Hm : (0 < IZR 9007199254740992)%R) by (apply IZR_lt; lia).
  split.
  - apply Rmult_le_pos; [exact H0 | left; apply Rinv_0_lt_compat, Hm].
  - apply (Rmult_lt_reg_r (IZR 9007199254740992)); [exact Hm|].
    unfold Rdiv. rewrite Rmult_assoc, Rinv_l, Rmult_1_r, Rmult_1_l; [exact H1|].
    apply Rgt_not_eq, Hm.
Qed.

Lemma randint_range a b s : a <= b -> a <= fst (randint a b s) <= b.
Proof.
  intros H. unfold randint. cbn [fst].
  pose proof (Z.mod_pos_bound s (b - a + 1) ltac:(lia)). lia.
Qed.

Lemma sample_spec n k s :
  (k <= n)%nat ->
  List.length (fst (sample n k s)) = k
  /\ NoDup (fst (sample n k s))
  /\ Forall (fun j => (j < n)%nat) (fst (sample n k s)).
Proof.
  intros Hk. unfold sample. cbn [fst].
  set (r := Z.to_nat (s mod Z.of_nat n)).
  assert (Hr : (n = 0 \/ r < n)%nat).
  { destruct n as [|n']; [left; reflexivity|right].
    unfold r. pose proof (Z.mod_pos_bound s (Z.of_nat (S n')) ltac:(lia)). lia. }
  clearbody r.
  split; [rewrite length_map, length_seq; reflexivity|]. split.
  - apply NoDup_map_NoDup_ForallPairs; [|apply seq_NoDup].
    intros i j Hi Hj. apply in_seq in Hi, Hj. unfold rotate.
    destruct (Nat.ltb_spec (r + i) n), (Nat.ltb_spec (r + j) n); lia.
  - apply Forall_forall. intros x Hx. apply in_map_iff in Hx.
    destruct Hx as (i & <- & Hi). apply in_seq in Hi. unfold rotate. cbv beta.
    destruct (Nat.ltb_spec (r + i) n); lia.
Qed.

#[global] Instance laws : RandomSourceLaws Lcg.source.
Proof.
  constructor.
  - exact random_range.
  - exact randint_range.
  - exact sample_spec.
Qed.

End LcgFacts.

(** ** The monad and the effects *)

Section MonadFacts.
Context {RS : RandomSource} {RL : RandomSourceLaws RS}.

Lemma bind_ok {A B} (m : M A) (k : A -> M B) w b w' :
  bind m k w = (Ok b, w') ->
  exists a w1, m w = (Ok a, w1) /\ k a w1 = (Ok b, w').
Proof.
  unfold bind. destruct (m w) as [[a|e] w1]; [|discriminate].
  intros H. exists a, w1. auto.
Qed.

Lemma bind_step {A B} (m : M A) (k : A -> M B) w a w1 :
  m w = (Ok a, w1) -> bind m k w = k a w1.
Proof. unfold bind. intros ->. reflexivity. Qed.

Lemma bind_raise {A B} (m : M A) (k : A -> M B) w e w1 :
  m w = (Raise e, w1) -> bind m k w = (Raise e, w1).
Proof. unfold bind. intros ->. reflexivity. Qed.

Lemma lift_ok {A} (r : result A) w a w' :
  lift r w = (Ok a, w') -> r = Ok a /\ w' = w.
Proof. unfold lift. intros H. injection H as -> ->. auto. Qed.

Lemma ret_ok {A} (x : A) w a w' :
  ret x w = (Ok a, w') -> a = x /\ w' = w.
Proof. unfold ret. intros H. injection H as -> ->. auto. Qed.

Lemma random_random_ok w x w' :
  random_random w = (Ok x, w') -> (0 <= x < 1)%R.
Proof.
  unfold random_random. pose proof (gen_random_range (rng w)) as H.
  destruct (gen_random (rng w)) as [y g]. intros E. injection E as <- <-.
  exact H.
Qed.

Lemma random_random_total w : exists x w', random_random w = (Ok x, w').
Proof.
  unfold random_random. destruct (gen_random (rng w)) as [y g]. eauto.
Qed.

Lemma random_randint_ok a b w x w' :
  random_randint a b w = (Ok x, w') -> a <= x <= b.
Proof.
  unfold random_randint. destruct (a <=? b) eqn:E; [|discriminate].
  apply Z.leb_le in E. pose proof (gen_randint_range a b (rng w) E) as H.
  destruct (gen_randint a b (rng w)) as [y g]. intros E'. injection E' as <- <-.
  exact H.
Qed.

Lemma random_randint_total a b w :
  a <= b -> exists x w', random_randint a b w = (Ok x, w').
Proof.
  intros H. unfold random_randint. apply Z.leb_le in H. rewrite H.
  destruct (gen_randint a b (rng w)) as [y g]. eauto.
Qed.

(** [sample] of two returns the elements at two different positions. *)
Lemma random_sample_two {A} (pop : list A) w l w' :
  random_sample pop 2 w = (Ok l, w') ->
  exists i j a b,
    l = [a; b] /\ i <> j /\ nth_error pop i = Some a /\ nth_error pop j = Some b.
Proof.
  unfold random_sample. destruct (2 <=? List.length pop)%nat eqn:E; [|discriminate].
  apply Nat.leb_le in E.
  pose proof (gen_sample_spec (List.length pop) 2 (rng w) E) as (Hl & Hd & Hf).
  destruct (gen_sample (List.length pop) 2 (rng w)) as [js g].
  cbn [fst] in *. intros E'. injection E' as <- <-.
  destruct js as [|i [|j [|? ?]]]; try discriminate.
  inversion Hf as [|? ? Hi Hf']; subst. inversion Hf' as [|? ? Hj _]; subst.
  destruct (nth_error pop i) as [a|] eqn:Ei;
    [|apply nth_error_None in Ei; lia].
  destruct (nth_error pop j) as [b|] eqn:Ej;
    [|apply nth_error_None in Ej; lia].
  exists i, j, a, b. split; [|split; [|split; assumption]].
  - cbn [flat_map app]. rewrite Ei, Ej. reflexivity.
  - inversion Hd as [|? ? Hn _]; subst. intros ->. apply Hn. left. reflexivity.
Qed.

Lemma random_sample_total {A} (pop : list A) k w :
  (k <= List.length pop)%nat -> exists l w', random_sample pop k w = (Ok l, w').
Proof.
  intros H. unfold random_sample. apply Nat.leb_le in H. rewrite H.
  destruct (gen_sample (List.length pop) k (rng w)) as [js g]. eauto.
Qed.

(** Every element of the list a loop returns was returned by a turn. *)
Lemma mapM_ok {A B} (f : A -> M B) l : forall w ys w',
  mapM f l w = (Ok ys, w') ->
  Forall2 (fun x y => exists w1 w2, f x w1 = (Ok y, w2)) l ys.
Proof.
  induction l as [|x xs IH]; intros w ys w' H.
  - apply ret_ok in H. destruct H as [-> _]. constructor.
  - cbn [mapM] in H.
    apply bind_ok in H. destruct H as (y & w1 & Hy & H).
    apply bind_ok in H. destruct H as (ys' & w2 & Hys & H).
    apply ret_ok in H. destruct H as [-> _].
    constructor; [eauto | eapply IH; eauto].
Qed.

(** A loop whose turns all return does return. *)
Lemma mapM_total {A B} (f : A -> M B) l :
  (forall x, In x l -> forall w, exists y w', f x w = (Ok y, w')) ->
  forall w, exists ys w', mapM f l w = (Ok ys, w').
Proof.
  induction l as [|x xs IH]; intros Hf w.
  - exists [], w. reflexivity.
  - destruct (Hf x (or_introl eq_refl) w) as (y & w1 & Hy).
    destruct (IH (fun x' Hx => Hf x' (or_intror Hx)) w1) as (ys & w2 & Hys).
    exists (y :: ys), w2. cbn [mapM].
    rewrite (bind_step _ _ _ _ _ Hy), (bind_step _ _ _ _ _ Hys). reflexivity.
Qed.

End MonadFacts.

(** ** Lists in step *)

Lemma Forall2_length_eq {A B} (R : A -> B -> Prop) l l' :
  Forall2 R l l' -> List.length l' = List.length l.
Proof. induction 1; cbn; congruence. Qed.

Lemma Forall2_map_eq {A B C} (R : A -> B -> Prop) (g : B -> C) (h : A -> C) l l' :
  Forall2 R l l' ->
  (forall x y, In x l -> R x y -> g y = h x) ->
  map g l' = map h l.
Proof.
  induction 1 as [|x y l l' Hxy _ IH]; intros Hg; [reflexivity|].
  cbn [map]. rewrite (Hg x y (or_introl eq_refl) Hxy).
  rewrite IH; [reflexivity|]. intros x' y' Hin. apply Hg. right. exact Hin.
Qed.

Lemma Forall2_Forall_r {A B} (R : A -> B -> Prop) (P : B -> Prop) l l' :
  Forall2 R l l' ->
  (forall x y, In x l -> R x y -> P y) ->
  Forall P l'.
Proof.
  induction 1 as [|x y l l' Hxy _ IH]; intros HP; constructor.
  - apply (HP x y (or_introl eq_refl) Hxy).
  - apply IH. intros x' y' Hin. apply HP. right. exact Hin.
Qed.

Lemma Forall2_nth_error_r {A B} (R : A -> B -> Prop) l l' j y :
  Forall2 R l l' -> nth_error l' j = Some y ->
  exists x, nth_error l j = Some x /\ R x y.
Proof.
  intros H. revert j. induction H as [|x0 y0 l l' Hxy _ IH]; intros [|j] E;
    try discriminate.
  - injection E as <-. exists x0. auto.
  - apply IH, E.
Qed.

Lemma nth_error_map_Some {A B} (f : A -> B) l i y :
  nth_error (map f l) i = Some y -> exists x, nth_error l i = Some x /\ f x = y.
Proof.
  rewrite nth_error_map. destruct (nth_error l i) as [x|]; [|discriminate].
  intros E. injection E as <-. eauto.
Qed.

(** Reading a list of points through its list of dates. *)
Lemma dates_nth (ts : list ts_point) (f : Z -> string) n i :
  map date ts = map f (range n) -> 0 <= i < n ->
  exists p, nth_error ts (Z.to_nat i) = Some p /\ date p = f i.
Proof.
  intros E Hi.
  assert (H : nth_error (map date ts) (Z.to_nat i) = Some (f i))
    by (rewrite E, nth_error_map, range_nth by exact Hi; reflexivity).
  apply nth_error_map_Some in H. exact H.
Qed.

(** ** The loops of the handler *)

Section LoopFacts.
Context {RS : RandomSource} {RL : RandomSourceLaws RS}.
Import Calendar CalendarFacts Datetime Text TextFacts DatetimeFacts NumberFacts.

Lemma time_series_point_ok start i w p w' :
  time_series_point start i w = (Ok p, w') ->
  exists td d u1 u2 u3 u4,
    timedelta_of_days i = Ok td /\ datetime_add start td = Ok d
    /\ (0 <= u1 < 1)%R /\ (0 <= u2 < 1)%R /\ (0 <= u3 < 1)%R /\ (0 <= u4 < 1)%R
    /\ p = mk_point (strftime d)
                    (py_round (200 + 40 * sin (IZR i / 6) + u1 * 60)%R)
                    (py_max 0 ((sin (IZR i / 7 + 0.5) + u2 * 0.6) / 2)%R)
                    (py_max 0 ((cos (IZR i / 8) + u3 * 0.6) / 2)%R)
                    (py_max 0 ((cos (IZR i / 5 + 1) + u4 * 0.6) / 2)%R).
Proof.
  unfold time_series_point. intros H.
  apply bind_ok in H. destruct H as (td & w1 & Htd & H).
  apply lift_ok in Htd. destruct Htd as [Htd ->].
  apply bind_ok in H. destruct H as (d & w2 & Hd & H).
  apply lift_ok in Hd. destruct Hd as [Hd ->].
  apply bind_ok in H. destruct H as (u1 & w3 & H1 & H).
  apply bind_ok in H. destruct H as (u2 & w4 & H2 & H).
  apply bind_ok in H. destruct H as (u3 & w5 & H3 & H).
  apply bind_ok in H. destruct H as (u4 & w6 & H4 & H).
  apply ret_ok in H. destruct H as [-> _].
  exists td, d, u1, u2, u3, u4.
  repeat (split; [first [assumption | eapply random_random_ok; eassumption]|]).
  reflexivity.
Qed.

Lemma time_series_point_total start i w :
  valid_datetime start = true ->
  0 <= i -> toordinal start + i <= _MAXORDINAL ->
  exists p w', time_series_point start i w = (Ok p, w').
Proof.
  intros V Hi Hmax. pose proof (toordinal_range start V) as Ho.
  unfold _MAXORDINAL in *. unfold time_series_point.
  rewrite (bind_step (lift (timedelta_of_days i)) _ w (mk_timedelta i 0 0) w)
    by (unfold lift; rewrite timedelta_of_days_ok by lia; reflexivity).
  rewrite (bind_step (lift (datetime_add start (mk_timedelta i 0 0))) _ w _ w)
    by (unfold lift;
        rewrite datetime_add_days by (try assumption; unfold _MAXORDINAL; lia);
        reflexivity).
  destruct (random_random_total w) as (u1 & w1 & H1).
  rewrite (bind_step _ _ _ _ _ H1).
  destruct (random_random_total w1) as (u2 & w2 & H2).
  rewrite (bind_step _ _ _ _ _ H2).
  destruct (random_random_total w2) as (u3 & w3 & H3).
  rewrite (bind_step _ _ _ _ _ H3).
  destruct (random_random_total w3) as (u4 & w4 & H4).
  rewrite (bind_step _ _ _ _ _ H4).
  eexists _, _. reflexivity.
Qed.

(** The date of the point at offset [i]. *)
Lemma time_series_point_date start i w p w' :
  valid_datetime start = true -> midnight start ->
  0 <= i -> toordinal start + i <= _MAXORDINAL ->
  time_series_point start i w = (Ok p, w') ->
  date p = day_text (toordinal start + i).
Proof.
  intros V (M1 & M2 & M3 & M4) Hi Hmax H.
  pose proof (toordinal_range start V) as Ho. unfold _MAXORDINAL in *.
  apply time_series_point_ok in H.
  destruct H as (td & d & u1 & u2 & u3 & u4 & Htd & Hd & _ & _ & _ & _ & ->).
  rewrite timedelta_of_days_ok in Htd by lia. injection Htd as <-.
  rewrite datetime_add_days in Hd by (try assumption; unfold _MAXORDINAL; lia).
  injection Hd as <-. rewrite M1, M2, M3, M4. cbn [date]. unfold day_text.
  reflexivity.
Qed.

Lemma time_series_total start n w :
  valid_datetime start = true ->
  toordinal start + n - 1 <= _MAXORDINAL ->
  exists ts w', mapM (time_series_point start) (range n) w = (Ok ts, w').
Proof.
  intros V Hn. apply mapM_total. intros i Hi w0. apply range_In in Hi.
  apply time_series_point_total; (assumption || lia).
Qed.

Lemma time_series_dates start n w ts w' :
  valid_datetime start = true -> midnight start ->
  toordinal start + n - 1 <= _MAXORDINAL ->
  mapM (time_series_point start) (range n) w = (Ok ts, w') ->
  map date ts = map (fun i => day_text (toordinal start + i)) (range n).
Proof.
  intros V Mid Hn H. apply mapM_ok in H.
  apply (Forall2_map_eq _ _ _ _ _ H).
  intros i p Hi (w1 & w2 & Hp). apply range_In in Hi.
  eapply time_series_point_date; try eassumption; lia.
Qed.

Lemma time_series_bounds start n w ts w' :
  mapM (time_series_point start) (range n) w = (Ok ts, w') ->
  Forall (fun p =>
    160 <= count p
    /\ (0 <= anxiety p <= 0.8)%R /\ (0 <= sadness p <= 0.8)%R
    /\ (0 <= joy p <= 0.8)%R) ts.
Proof.
  intros H. apply mapM_ok in H.
  apply (Forall2_Forall_r _ _ _ _ H).
  intros i p _ (w1 & w2 & Hp). apply time_series_point_ok in Hp.
  destruct Hp as (td & d & u1 & u2 & u3 & u4 & _ & _ & H1 & H2 & H3 & H4 & ->).
  cbn [count anxiety sadness joy].
  split; [apply py_round_ge, count_formula_ge, H1|].
  split; [apply py_max_0_bounds; [lra | apply anxiety_formula_le, H2]|].
  split; [apply py_max_0_bounds; [lra | apply sadness_formula_le, H3]|].
  apply py_max_0_bounds; [lra | apply joy_formula_le, H4].
Qed.

Lemma make_node_ok i w n w' :
  make_node i w = (Ok n, w') -> node_ok i n.
Proof.
  unfold make_node. intros H.
  apply bind_ok in H. destruct H as (dg & w1 & Hdg & H).
  apply bind_ok in H. destruct H as (u & w2 & Hu & H).
  apply ret_ok in H. destruct H as [-> _].
  apply random_randint_ok in Hdg. apply random_random_ok in Hu.
  unfold node_ok. cbn [node_id degree sentiment].
  split; [reflexivity|]. split; [exact Hdg|].
  apply sentiment_formula_bounds, Hu.
Qed.

Lemma make_node_total i w : exists n w', make_node i w = (Ok n, w').
Proof.
  unfold make_node.
  destruct (random_randint_total 1 10 w ltac:(lia)) as (dg & w1 & H1).
  rewrite (bind_step _ _ _ _ _ H1).
  destruct (random_random_total w1) as (u & w2 & H2).
  rewrite (bind_step _ _ _ _ _ H2).
  eexists _, _. reflexivity.
Qed.

Lemma nodes_ok w ns w' :
  mapM make_node (range 40) w = (Ok ns, w') ->
  Forall2 node_ok (range 40) ns.
Proof.
  intros H. apply mapM_ok in H.
  eapply Forall2_impl; [|exact H].
  intros i n (w1 & w2 & Hn). eapply make_node_ok, Hn.
Qed.

Lemma nodes_total w : exists ns w', mapM make_node (range 40) w = (Ok ns, w').
Proof. apply mapM_total. intros i _ w0. apply make_node_total. Qed.

Lemma make_link_ok ns i w l w' :
  Forall2 node_ok (range 40) ns ->
  make_link ns i w = (Ok l, w') -> link_ok ns l.
Proof.
  intros Hns H. unfold make_link in H.
  apply bind_ok in H. destruct H as (ab & w1 & Hab & H).
  apply random_sample_two in Hab.
  destruct Hab as (j1 & j2 & a & b & -> & Hneq & Ha & Hb).
  apply bind_ok in H. destruct H as (u & w2 & Hu & H).
  apply ret_ok in H. destruct H as [-> _].
  apply random_random_ok in Hu.
  unfold link_ok. cbn [source target link_value].
  split; [apply in_map, (nth_error_In _ _ Ha)|].
  split; [apply in_map, (nth_error_In _ _ Hb)|].
  split; [|exact Hu].
  destruct (Forall2_nth_error_r _ _ _ _ _ Hns Ha) as (x1 & Hx1 & (E1 & _)).
  destruct (Forall2_nth_error_r _ _ _ _ _ Hns Hb) as (x2 & Hx2 & (E2 & _)).
  apply range_nth_error in Hx1, Hx2.
  destruct Hx1 as [-> R1]. destruct Hx2 as [-> R2].
  rewrite E1, E2. intros E. apply user_id_inj in E; lia.
Qed.

Lemma make_link_total ns i w :
  (2 <= List.length ns)%nat -> exists l w', make_link ns i w = (Ok l, w').
Proof.
  intros Hlen. unfold make_link.
  destruct (random_sample_total ns 2 w Hlen) as (ab & w1 & H1).
  rewrite (bind_step _ _ _ _ _ H1).
  destruct (random_sample_two _ _ _ _ H1) as (j1 & j2 & a & b & -> & _).
  destruct (random_random_total w1) as (u & w2 & H2).
  rewrite (bind_step _ _ _ _ _ H2).
  eexists _, _. reflexivity.
Qed.

Lemma links_ok ns w ls w' :
  Forall2 node_ok (range 40) ns ->
  mapM (make_link ns) (range 80) w = (Ok ls, w') ->
  List.length ls = 80%nat /\ Forall (link_ok ns) ls.
Proof.
  intros Hns H. apply mapM_ok in H. split.
  - rewrite (Forall2_length_eq _ _ _ H). apply range_length.
  - apply (Forall2_Forall_r _ _ _ _ H).
    intros i l _ (w1 & w2 & Hl). eapply make_link_ok; eassumption.
Qed.

Lemma links_total ns w :
  (2 <= List.length ns)%nat ->
  exists ls w', mapM (make_link ns) (range 80) w = (Ok ls, w').
Proof.
  intros Hlen. apply mapM_total. intros i _ w0. apply make_link_total, Hlen.
Qed.

End LoopFacts.

(** ** The handler as a whole *)

Section HandlerFacts.
Context {RS : RandomSource} {RL : RandomSourceLaws RS}.
Import Calendar CalendarFacts Datetime Text TextFacts DatetimeFacts NumberFacts.

(** The handler up to the time-series loop: the default of [from] is
    computed, then both dates are parsed, and nothing is drawn yet. *)
Lemma get_dashboard_unfold args w :
  get_dashboard args w =
  match default_from w with
  | Raise e => (Raise e, mk_world (clock w) (S (clock_reads w)) (rng w))
  | Ok d30 =>
      let start_date := args_get args "from" (strftime d30) in
      let end_date := args_get args "to" (strftime (now2 w)) in
      match strptime start_date with
      | Raise e => (Raise e, after_clock w)
      | Ok start =>
          match strptime end_date with
          | Raise e => (Raise e, after_clock w)
          | Ok end_ =>
              generate start_date end_date (args_get args "platform" "twitter")
                       start end_ (after_clock w)
          end
      end
  end.
Proof.
  unfold get_dashboard, default_from.
  rewrite (bind_step datetime_now _ w (now1 w)
             (mk_world (clock w) (S (clock_reads w)) (rng w))) by reflexivity.
  rewrite (bind_step (lift (timedelta_of_days 30)) _ _ (mk_timedelta 30 0 0)
             (mk_world (clock w) (S (clock_reads w)) (rng w))) by reflexivity.
  destruct (datetime_sub_timedelta (now1 w) (mk_timedelta 30 0 0)) as [d30|e] eqn:Hd.
  2: { apply bind_raise. reflexivity. }
  rewrite (bind_step (lift (Ok d30)) _ _ d30
             (mk_world (clock w) (S (clock_reads w)) (rng w))) by reflexivity.
  rewrite (bind_step datetime_now _ _ (now2 w) (after_clock w)) by reflexivity.
  cbv zeta.
  destruct (strptime (args_get args "from" (strftime d30))) as [start|e] eqn:Hs.
  2: { apply bind_raise. reflexivity. }
  rewrite (bind_step (lift (Ok start)) _ _ start (after_clock w)) by reflexivity.
  destruct (strptime (args_get args "to" (strftime (now2 w)))) as [end_|e] eqn:He.
  2: { apply bind_raise. reflexivity. }
  rewrite (bind_step (lift (Ok end_)) _ _ end_ (after_clock w)) by reflexivity.
  destruct (strptime_midnight _ _ Hs) as (Vs & Ms).
  destruct (strptime_midnight _ _ He) as (Ve & Me).
  rewrite (bind_step (lift (datetime_sub end_ start)) _ _
             (mk_timedelta (toordinal end_ - toordinal start) 0 0) (after_clock w))
    by (unfold lift; rewrite datetime_sub_midnights by assumption; reflexivity).
  reflexivity.
Qed.

Lemma generate_ok start_date end_date platform start end_ w r w' :
  generate start_date end_date platform start end_ w = (Ok r, w') ->
  exists ts w1 ns w2 ls,
    mapM (time_series_point start)
         (range (toordinal end_ - toordinal start + 1)) w = (Ok ts, w1)
    /\ mapM make_node (range 40) w1 = (Ok ns, w2)
    /\ mapM (make_link ns) (range 80) w2 = (Ok ls, w')
    /\ r = mk_response ts static_topics static_emotions (mk_graph ns ls)
                       (mk_meta start_date end_date platform).
Proof.
  unfold generate. intros H.
  apply bind_ok in H. destruct H as (ts & w1 & Hts & H).
  apply bind_ok in H. destruct H as (ns & w2 & Hns & H).
  apply bind_ok in H. destruct H as (ls & w3 & Hls & H).
  apply ret_ok in H. destruct H as [-> ->].
  exists ts, w1, ns, w2, ls. auto.
Qed.

Lemma generate_total start_date end_date platform start end_ w :
  valid_datetime start = true -> valid_datetime end_ = true ->
  exists r w', generate start_date end_date platform start end_ w = (Ok r, w').
Proof.
  intros Vs Ve. pose proof (toordinal_range end_ Ve) as He.
  unfold generate.
  destruct (time_series_total start (toordinal end_ - toordinal start + 1) w Vs
              ltac:(lia)) as (ts & w1 & H1).
  rewrite (bind_step _ _ _ _ _ H1).
  destruct (nodes_total w1) as (ns & w2 & H2).
  rewrite (bind_step _ _ _ _ _ H2).
  assert (Hlen : (2 <= List.length ns)%nat).
  { apply nodes_ok in H2. rewrite (Forall2_length_eq _ _ _ H2), range_length. lia. }
  destruct (links_total ns w2 Hlen) as (ls & w3 & H3).
  rewrite (bind_step _ _ _ _ _ H3).
  eexists _, _. reflexivity.
Qed.

(** The platform label only ends up in [meta]. *)
Lemma generate_platform sd ed p q start end_ w :
  generate sd ed p start end_ w =
  match generate sd ed q start end_ w with
  | (Ok r, w') =>
      (Ok (mk_response (timeSeries r) (topics r) (emotions r) (graph r)
                       (mk_meta (meta_from (meta r)) (meta_to (meta r)) p)), w')
  | (Raise e, w') => (Raise e, w')
  end.
Proof.
  unfold generate, bind.
  destruct (mapM (time_series_point start) _ w) as [[ts|e] w1]; [|reflexivity].
  destruct (mapM make_node _ w1) as [[ns|e] w2]; [|reflexivity].
  destruct (mapM (make_link ns) _ w2) as [[ls|e] w3]; reflexivity.
Qed.

(** What a request that is answered went through. *)
Lemma get_dashboard_ok args w r w' :
  get_dashboard args w = (Ok r, w') ->
  exists d30 start end_,
    default_from w = Ok d30
    /\ strptime (args_get args "from" (strftime d30)) = Ok start
    /\ strptime (args_get args "to" (strftime (now2 w))) = Ok end_
    /\ generate (args_get args "from" (strftime d30))
                (args_get args "to" (strftime (now2 w)))
                (args_get args "platform" "twitter")
                start end_ (after_clock w) = (Ok r, w').
Proof.
  rewrite get_dashboard_unfold.
  destruct (default_from w) as [d30|e]; [|discriminate].
  cbv zeta.
  destruct (strptime (args_get args "from" (strftime d30))) as [start|e] eqn:Hs;
    [|discriminate].
  destruct (strptime (args_get args "to" (strftime (now2 w)))) as [end_|e] eqn:He;
    [|discriminate].
  intros H. exists d30, start, end_. auto.
Qed.

(** A request whose default and dates are fine goes on to the loops. *)
Lemma get_dashboard_run args w d30 start end_ :
  default_from w = Ok d30 ->
  strptime (args_get args "from" (strftime d30)) = Ok start ->
  strptime (args_get args "to" (strftime (now2 w))) = Ok end_ ->
  get_dashboard args w
  = generate (args_get args "from" (strftime d30))
             (args_get args "to" (strftime (now2 w)))
             (args_get args "platform" "twitter")
             start end_ (after_clock w).
Proof.
  intros Hd Hs He. rewrite get_dashboard_unfold, Hd. cbv zeta.
  rewrite Hs, He. reflexivity.
Qed.

(** And it is answered. *)
Lemma get_dashboard_total args w d30 start end_ :
  default_from w = Ok d30 ->
  strptime (args_get args "from" (strftime d30)) = Ok start ->
  strptime (args_get args "to" (strftime (now2 w))) = Ok end_ ->
  exists r w', get_dashboard args w = (Ok r, w').
Proof.
  intros Hd Hs He. rewrite (get_dashboard_run _ _ _ _ _ Hd Hs He).
  apply generate_total; eapply strptime_midnight; eassumption.
Qed.

(** The dates of the series of an answered request. *)
Lemma get_dashboard_dates args w d30 start end_ r w' :
  default_from w = Ok d30 ->
  strptime (args_get args "from" (strftime d30)) = Ok start ->
  strptime (args_get args "to" (strftime (now2 w))) = Ok end_ ->
  get_dashboard args w = (Ok r, w') ->
  map date (timeSeries r)
  = map (fun i => day_text (toordinal start + i))
        (range (toordinal end_ - toordinal start + 1)).
Proof.
  intros Hd Hs He H. rewrite (get_dashboard_run _ _ _ _ _ Hd Hs He) in H.
  apply generate_ok in H. destruct H as (ts & w1 & ns & w2 & ls & Hts & _ & _ & ->).
  destruct (strptime_midnight _ _ Hs) as (Vs & Ms).
  destruct (strptime_midnight _ _ He) as (Ve & _).
  pose proof (toordinal_range end_ Ve).
  cbn [timeSeries]. eapply time_series_dates; try eassumption. lia.
Qed.

(** The [meta] of an answered request. *)
Lemma get_dashboard_meta args w r w' :
  get_dashboard args w = (Ok r, w') ->
  exists d30,
    default_from w = Ok d30
    /\ meta r = mk_meta (args_get args "from" (strftime d30))
                        (args_get args "to" (strftime (now2 w)))
                        (args_get args "platform" "twitter").
Proof.
  intros H. apply get_dashboard_ok in H.
  destruct H as (d30 & start & end_ & Hd & _ & _ & H).
  apply generate_ok in H. destruct H as (ts & w1 & ns & w2 & ls & _ & _ & _ & ->).
  exists d30. split; [exact Hd | reflexivity].
Qed.

Lemma args_get_supplied args1 args2 key default :
  supplied key args1 = supplied key args2 ->
  args_get args1 key default = args_get args2 key default.
Proof. unfold args_get. intros ->. reflexivity. Qed.

(** The default window when the clock stays on one calendar day: a request
    without [from], [to] and [platform], handled while both clock readings
    fall on the same day, 30 days or more after 1000-01-01, gets 31 points
    ending on that day, and the platform ["twitter"]. *)
Lemma default_window_same_day args w :
  supplied "from" args = None -> supplied "to" args = None ->
  supplied "platform" args = None ->
  valid_datetime (now1 w) = true -> valid_datetime (now2 w) = true ->
  first_four_digit_day + 30 <= toordinal (now1 w) ->
  toordinal (now2 w) = toordinal (now1 w) ->
  exists r w' final,
    get_dashboard args w = (Ok r, w')
    /\ List.length (timeSeries r) = 31%nat
    /\ nth_error (timeSeries r) 30 = Some final
    /\ date final = strftime (now2 w)
    /\ meta_platform (meta r) = "twitter"%string.
Proof.
  intros Hf Ht Hp V1 V2 H1000 Hsame.
  pose proof (toordinal_range _ V1) as R1.
  assert (H30 : 30 < toordinal (now1 w))
    by (change first_four_digit_day with 364878 in H1000; lia).
  pose proof (datetime_minus_30 _ V1 H30) as Hd. fold (default_from w) in Hd.
  destruct (combine_fromordinal_ymd (toordinal (now1 w) - 30) (hour (now1 w))
              (minute (now1 w)) (second (now1 w)) (microsecond (now1 w))
              ltac:(lia)) as [Vd Od].
  pose proof (combine_fromordinal_year (toordinal (now1 w) - 30) (hour (now1 w))
                (minute (now1 w)) (second (now1 w)) (microsecond (now1 w))
                ltac:(lia)) as Yd.
  set (d30 := combine_fromordinal _ _ _ _ _) in *.
  destruct (strftime_parses d30 Vd Yd) as (start & Hs & Os).
  pose proof V2 as V2'. apply valid_datetime_iff in V2'. destruct V2' as [V2' _].
  assert (Y2 : 1000 <= year (now2 w))
    by (apply (four_digit_year _ _ _ V2'); fold (toordinal (now2 w)); lia).
  destruct (strftime_parses (now2 w) V2' Y2) as (end_ & He & Oe).
  assert (Hs' : strptime (args_get args "from" (strftime d30)) = Ok start)
    by (unfold args_get; rewrite Hf; exact Hs).
  assert (He' : strptime (args_get args "to" (strftime (now2 w))) = Ok end_)
    by (unfold args_get; rewrite Ht; exact He).
  destruct (get_dashboard_total _ _ _ _ _ Hd Hs' He') as (r & w' & H).
  pose proof (get_dashboard_dates _ _ _ _ _ _ _ Hd Hs' He' H) as Hdates.
  replace (toordinal end_ - toordinal start + 1) with 31 in Hdates by lia.
  destruct (dates_nth _ _ 31 30 Hdates ltac:(lia)) as (final & Hn & Hdate).
  exists r, w', final. split; [exact H|].
  split; [rewrite <- (length_map date), Hdates, length_map; reflexivity|].
  split; [exact Hn|]. split.
  - rewrite Hdate. replace (toordinal start + 30) with (toordinal (now2 w)) by lia.
    apply day_text_toordinal, V2.
  - destruct (get_dashboard_meta _ _ _ _ H) as (d & _ & E).
    rewrite E. cbn [meta_platform]. unfold args_get. rewrite Hp. reflexivity.
Qed.

End HandlerFacts.

(** The request of three days is answered, and its series has a first
    point. *)
Lemma three_days_answered :
  exists r w' p,
    get_dashboard args_three_days world_noon = (Ok r, w')
    /\ In p (timeSeries r).
Proof.
  assert (Hd : default_from world_noon = Ok (mk_datetime 2024 5 16 12 30 0 0))
    by (vm_compute; reflexivity).
  assert (Hs : Text.strptime (args_get args_three_days "from"
                  (Text.strftime (mk_datetime 2024 5 16 12 30 0 0)))
               = Ok (mk_datetime 2024 1 1 0 0 0 0)) by (vm_compute; reflexivity).
  assert (He : Text.strptime (args_get args_three_days "to"
                  (Text.strftime (now2 world_noon)))
               = Ok (mk_datetime 2024 1 3 0 0 0 0)) by (vm_compute; reflexivity).
  destruct (get_dashboard_total _ _ _ _ _ Hd Hs He) as (r & w' & H).
  pose proof (get_dashboard_dates _ _ _ _ _ _ _ Hd Hs He H) as Hdates.
  destruct (dates_nth _ _ _ 0 Hdates
              ltac:(vm_compute; split; [discriminate | reflexivity]))
    as (p & Hp & _).
  exists r, w', p. split; [exact H | exact (nth_error_In _ _ Hp)].
Qed.

(** * The claims *)

Section Claims.
Context {RS : RandomSource} {RL : RandomSourceLaws RS}.
Import Calendar CalendarFacts Datetime Text TextFacts DatetimeFacts NumberFacts.

(** C1, as amended.  For every request whose resolved [from] and [to] (the
    values sent, else the defaults) parse as calendar dates, the handler
    answers; the series has max(0, (to - from in days) + 1) points; the date
    of the point at position [i] is what [strftime] prints for
    [from + timedelta(days=i)], the calendar day [i] days after [from], so
    the dates go up day by day from [from]; when [from] is in year 1000 or
    later each date parses back to that day; and when [from] is not after
    [to], the first date is [from] and the last is [to]. *)
Theorem time_series_covers_range args w d30 start end_ :
  default_from w = Ok d30 ->
  strptime (args_get args "from" (strftime d30)) = Ok start ->
  strptime (args_get args "to" (strftime (now2 w))) = Ok end_ ->
  exists r w',
    get_dashboard args w = (Ok r, w')
    /\ Z.of_nat (List.length (timeSeries r))
       = Z.max 0 (toordinal end_ - toordinal start + 1)
    /\ (forall i p, nth_error (timeSeries r) i = Some p ->
          exists d,
            datetime_add start (mk_timedelta (Z.of_nat i) 0 0) = Ok d
            /\ valid_datetime d = true
            /\ toordinal d = toordinal start + Z.of_nat i
            /\ date p = strftime d)
    /\ (1000 <= year start ->
        forall i p, nth_error (timeSeries r) i = Some p ->
          exists dt, strptime (date p) = Ok dt
                     /\ toordinal dt = toordinal start + Z.of_nat i)
    /\ (toordinal start <= toordinal end_ ->
          exists first final,
            nth_error (timeSeries r) 0 = Some first
            /\ date first = strftime start
            /\ nth_error (timeSeries r) (Z.to_nat (toordinal end_ - toordinal start))
               = Some final
            /\ date final = strftime end_
            /\ List.length (timeSeries r)
               = S (Z.to_nat (toordinal end_ - toordinal start))).
Proof.
  intros Hd Hs He.
  destruct (get_dashboard_total _ _ _ _ _ Hd Hs He) as (r & w' & H).
  exists r, w'. split; [exact H|].
  pose proof (get_dashboard_dates _ _ _ _ _ _ _ Hd Hs He H) as Hdates.
  destruct (strptime_midnight _ _ Hs) as (Vs & Ms).
  destruct (strptime_midnight _ _ He) as (Ve & _).
  pose proof (toordinal_range start Vs) as Rs.
  pose proof (toordinal_range end_ Ve) as Re.
  set (n := toordinal end_ - toordinal start + 1) in *.
  assert (Hlen : List.length (timeSeries r) = Z.to_nat n).
  { rewrite <- (length_map date), Hdates, length_map. apply range_length. }
  assert (Hnth : forall i p, nth_error (timeSeries r) i = Some p ->
             date p = day_text (toordinal start + Z.of_nat i) /\ Z.of_nat i < n).
  { intros i p Hp.
    assert (E : nth_error (map date (timeSeries r)) i = Some (date p))
      by (rewrite nth_error_map, Hp; reflexivity).
    rewrite Hdates in E. apply nth_error_map_Some in E.
    destruct E as (x & Hx & <-). apply range_nth_error in Hx.
    destruct Hx as [-> Hx]. split; [reflexivity | lia]. }
  split; [lia|]. split; [|split].
  - intros i p Hp. destruct (Hnth i p Hp) as [Hdate Hi].
    assert (Hin : 0 < toordinal start + Z.of_nat i <= _MAXORDINAL) by lia.
    destruct (combine_fromordinal_ymd (toordinal start + Z.of_nat i) 0 0 0 0
                ltac:(lia)) as [Vd Od].
    exists (combine_fromordinal (toordinal start + Z.of_nat i) 0 0 0 0).
    split.
    { rewrite (datetime_add_days start (Z.of_nat i) Vs Hin).
      destruct Ms as (-> & -> & -> & ->). reflexivity. }
    split; [|split; [exact Od | exact Hdate]].
    apply valid_datetime_iff. split; [exact Vd|].
    unfold combine_fromordinal.
    destruct (_ord2ymd (toordinal start + Z.of_nat i)) as [[y m] dd].
    cbn [hour minute second microsecond]. lia.
  - intros Hy i p Hp. destruct (Hnth i p Hp) as [-> Hi].
    apply day_text_parses.
    apply valid_datetime_iff in Vs. destruct Vs as [Vs _].
    pose proof (proj1 (four_digit_year _ _ _ Vs) Hy) as Hf.
    fold (toordinal start) in Hf. lia.
  - intros Hle.
    destruct (dates_nth _ _ n 0 Hdates ltac:(lia)) as (first & E0 & F0).
    destruct (dates_nth _ _ n (toordinal end_ - toordinal start) Hdates ltac:(lia))
      as (final & E1 & F1).
    exists first, final.
    rewrite Z.add_0_r, day_text_toordinal in F0 by exact Vs.
    replace (toordinal start + (toordinal end_ - toordinal start))
      with (toordinal end_) in F1 by lia.
    rewrite day_text_toordinal in F1 by exact Ve.
    repeat split; try assumption. lia.
Qed.

(** C2.  The graph of every response has 40 nodes and 80 links; the degree of
    every node is an integer from 1 to 10 and its sentiment is in
    [-0.8, 0.8]; every link joins the ids of two nodes of the graph, the two
    ids differ, and its value is in [0, 1). *)
Theorem graph_shape args w r w' :
  get_dashboard args w = (Ok r, w') ->
  List.length (nodes (graph r)) = 40%nat
  /\ List.length (links (graph r)) = 80%nat
  /\ Forall (fun n => 1 <= degree n <= 10 /\ (-0.8 <= sentiment n <= 0.8)%R)
            (nodes (graph r))
  /\ Forall (fun l =>
       In (source l) (map node_id (nodes (graph r)))
       /\ In (target l) (map node_id (nodes (graph r)))
       /\ source l <> target l
       /\ (0 <= link_value l < 1)%R) (links (graph r)).
Proof.
  intros H. apply get_dashboard_ok in H.
  destruct H as (d30 & start & end_ & _ & _ & _ & H).
  apply generate_ok in H. destruct H as (ts & w1 & ns & w2 & ls & _ & Hns & Hls & ->).
  cbn [graph nodes links]. apply nodes_ok in Hns.
  destruct (links_ok _ _ _ _ Hns Hls) as [Hlen Hl].
  split; [rewrite (Forall2_length_eq _ _ _ Hns); apply range_length|].
  split; [exact Hlen|]. split; [|exact Hl].
  apply (Forall2_Forall_r _ _ _ _ Hns). intros i n _ (_ & Hdg & Hse). auto.
Qed.

(** C4.  For every request in which [from] or [to] is sent with a value that
    [strptime] does not accept, the handler raises instead of answering, so
    the reply is the status 500 of an unhandled exception and no 4xx; the
    exception is the [ValueError] of [strptime] whenever the default of
    [from] could be computed. *)
Theorem malformed_date_is_unhandled args w v :
  supplied "from" args = Some v \/ supplied "to" args = Some v ->
  (forall dt, strptime v <> Ok dt) ->
  exists e w',
    get_dashboard args w = (Raise e, w')
    /\ http_status (fst (get_dashboard args w)) = 500
    /\ ~ (400 <= http_status (fst (get_dashboard args w)) <= 499)
    /\ (forall d30, default_from w = Ok d30 -> e = ValueError).
Proof.
  intros Hv Hbad.
  assert (Hraise : exists e w', get_dashboard args w = (Raise e, w')
                     /\ (forall d30, default_from w = Ok d30 -> e = ValueError)).
  { rewrite get_dashboard_unfold.
    destruct (default_from w) as [d30|e].
    2: { eexists _, _. split; [reflexivity | discriminate]. }
    cbv zeta.
    destruct (strptime (args_get args "from" (strftime d30))) as [start|e] eqn:Hs.
    2: { exists e. eexists. split; [reflexivity|].
         intros _ _. eapply strptime_raises, Hs. }
    destruct (strptime (args_get args "to" (strftime (now2 w)))) as [end_|e] eqn:He.
    2: { exists e. eexists. split; [reflexivity|].
         intros _ _. eapply strptime_raises, He. }
    exfalso. destruct Hv as [Hv|Hv].
    - unfold args_get in Hs. rewrite Hv in Hs. apply (Hbad _ Hs).
    - unfold args_get in He. rewrite Hv in He. apply (Hbad _ He). }
  destruct Hraise as (e & w' & H & He).
  exists e, w'. rewrite H. cbn [fst http_status].
  split; [reflexivity|]. split; [reflexivity|]. split; [lia | exact He].
Qed.

(** C5.  For every request whose resolved dates parse with [to] before
    [from], the day count is at most 0, the handler answers without raising,
    and the series is empty. *)
Theorem reversed_range_is_empty args w d30 start end_ :
  default_from w = Ok d30 ->
  strptime (args_get args "from" (strftime d30)) = Ok start ->
  strptime (args_get args "to" (strftime (now2 w))) = Ok end_ ->
  toordinal end_ < toordinal start ->
  (exists delta, datetime_sub end_ start = Ok delta /\ td_days delta + 1 <= 0)
  /\ (exists r w', get_dashboard args w = (Ok r, w') /\ timeSeries r = []).
Proof.
  intros Hd Hs He Hlt.
  destruct (strptime_midnight _ _ Hs) as (Vs & Ms).
  destruct (strptime_midnight _ _ He) as (Ve & Me).
  split.
  - exists (mk_timedelta (toordinal end_ - toordinal start) 0 0).
    split; [apply datetime_sub_midnights; assumption | cbn [td_days]; lia].
  - destruct (get_dashboard_total _ _ _ _ _ Hd Hs He) as (r & w' & H).
    exists r, w'. split; [exact H|].
    pose proof (get_dashboard_dates _ _ _ _ _ _ _ Hd Hs He H) as Hdates.
    rewrite range_nonpos in Hdates by lia.
    destruct (timeSeries r); [reflexivity | discriminate].
Qed.

(** C6.  The [anxiety], [sadness] and [joy] of every point of every response
    are at least 0 and at most (1 + 0.6) / 2 = 0.8; and so is the value of
    each of the three formulas at every offset [i] and every draw [u] in
    [0, 1). *)
Theorem emotion_values_bounded args w r w' p :
  get_dashboard args w = (Ok r, w') -> In p (timeSeries r) ->
  ((0 <= anxiety p <= (1 + 0.6) / 2)%R
   /\ (0 <= sadness p <= (1 + 0.6) / 2)%R
   /\ (0 <= joy p <= (1 + 0.6) / 2)%R)
  /\ ((1 + 0.6) / 2 = 0.8)%R
  /\ (forall (i : Z) (u : R), (0 <= u < 1)%R ->
        (0 <= py_max 0 ((sin (IZR i / 7 + 0.5) + u * 0.6) / 2) <= (1 + 0.6) / 2)%R
        /\ (0 <= py_max 0 ((cos (IZR i / 8) + u * 0.6) / 2) <= (1 + 0.6) / 2)%R
        /\ (0 <= py_max 0 ((cos (IZR i / 5 + 1) + u * 0.6) / 2) <= (1 + 0.6) / 2)%R).
Proof.
  intros H Hp. assert (E : ((1 + 0.6) / 2 = 0.8)%R) by lra.
  rewrite E. split; [|split; [reflexivity|]].
  - apply get_dashboard_ok in H.
    destruct H as (d30 & start & end_ & _ & _ & _ & H).
    apply generate_ok in H.
    destruct H as (ts & w1 & ns & w2 & ls & Hts & _ & _ & ->).
    cbn [timeSeries] in Hp. apply time_series_bounds in Hts.
    rewrite Forall_forall in Hts. destruct (Hts p Hp) as (_ & Ha & Hs & Hj).
    auto.
  - intros i u Hu.
    split; [|split]; (apply py_max_0_bounds; [lra|]).
    + apply anxiety_formula_le, Hu.
    + apply sadness_formula_le, Hu.
    + apply joy_formula_le, Hu.
Qed.

(** C7.  The [count] of every point of every response is an integer that is
    not negative: at every offset [i] and every draw [u] in [0, 1) the value
    under [round] is at least 160, because 200 + 40 sin x is, and so is the
    rounded count; nothing clamps it. *)
Theorem count_nonnegative args w r w' p :
  get_dashboard args w = (Ok r, w') -> In p (timeSeries r) ->
  0 <= count p
  /\ (forall x : R, (160 <= 200 + 40 * sin x)%R)
  /\ (forall (i : Z) (u : R), (0 <= u < 1)%R ->
        (160 <= 200 + 40 * sin (IZR i / 6) + u * 60)%R
        /\ 0 <= py_round (200 + 40 * sin (IZR i / 6) + u * 60)%R).
Proof.
  intros H Hp. split; [|split].
  - apply get_dashboard_ok in H.
    destruct H as (d30 & start & end_ & _ & _ & _ & H).
    apply generate_ok in H.
    destruct H as (ts & w1 & ns & w2 & ls & Hts & _ & _ & ->).
    cbn [timeSeries] in Hp. apply time_series_bounds in Hts.
    rewrite Forall_forall in Hts. destruct (Hts p Hp) as (Hc & _). lia.
  - intros x. pose proof (SIN_bound x) as [Hs _]. lra.
  - intros i u Hu. pose proof (count_formula_ge i u Hu) as Hf.
    split; [exact Hf|].
    pose proof (py_round_ge _ 160 Hf). lia.
Qed.

(** C8.  Whatever the request, the [topics] of the response are the fixed
    list of 4 entries and its [emotions] the fixed list of 5 entries. *)
Theorem topics_and_emotions_static args w r w' :
  get_dashboard args w = (Ok r, w') ->
  topics r = static_topics /\ List.length (topics r) = 4%nat
  /\ emotions r = static_emotions /\ List.length (emotions r) = 5%nat.
Proof.
  intros H. apply get_dashboard_ok in H.
  destruct H as (d30 & start & end_ & _ & _ & _ & H).
  apply generate_ok in H. destruct H as (ts & w1 & ns & w2 & ls & _ & _ & _ & ->).
  cbn [topics emotions]. repeat split; reflexivity.
Qed.

(** C9.  The [meta] of every response carries the resolved parameters: the
    values sent for [from], [to] and [platform] where there is one, and
    otherwise the text of the day 30 days before the first clock reading,
    the text of the day of the second clock reading, and ["twitter"]. *)
Theorem meta_echoes_parameters args w r w' :
  get_dashboard args w = (Ok r, w') ->
  exists d30,
    default_from w = Ok d30
    /\ meta_from (meta r)
       = match supplied "from" args with Some v => v | None => strftime d30 end
    /\ meta_to (meta r)
       = match supplied "to" args with
         | Some v => v
         | None => strftime (now2 w)
         end
    /\ meta_platform (meta r)
       = match supplied "platform" args with
         | Some v => v
         | None => "twitter"%string
         end.
Proof.
  intros H. destruct (get_dashboard_meta _ _ _ _ H) as (d30 & Hd & E).
  exists d30. rewrite E. cbn [meta_from meta_to meta_platform].
  repeat split; try reflexivity. exact Hd.
Qed.

(** C10.  Two requests that agree on [from] and [to], handled in the same
    world (the same clock readings, the same generator state), either both
    raise the same exception or are both answered, and then with the same
    [timeSeries], [topics], [emotions], [graph], [meta.from] and [meta.to];
    and they leave the same world behind.  Only [meta.platform] can differ. *)
Theorem platform_only_in_meta args1 args2 w :
  supplied "from" args1 = supplied "from" args2 ->
  supplied "to" args1 = supplied "to" args2 ->
  match get_dashboard args1 w, get_dashboard args2 w with
  | (Ok r1, w1), (Ok r2, w2) =>
      timeSeries r1 = timeSeries r2 /\ topics r1 = topics r2
      /\ emotions r1 = emotions r2 /\ graph r1 = graph r2
      /\ meta_from (meta r1) = meta_from (meta r2)
      /\ meta_to (meta r1) = meta_to (meta r2)
      /\ w1 = w2
  | (Raise e1, w1), (Raise e2, w2) => e1 = e2 /\ w1 = w2
  | _, _ => False
  end.
Proof.
  intros Hf Ht. rewrite !get_dashboard_unfold.
  destruct (default_from w) as [d30|e]; [|split; reflexivity].
  cbv zeta.
  rewrite (args_get_supplied args1 args2 "from" _ Hf).
  rewrite (args_get_supplied args1 args2 "to" _ Ht).
  destruct (strptime (args_get args2 "from" (strftime d30))) as [start|e];
    [|split; reflexivity].
  destruct (strptime (args_get args2 "to" (strftime (now2 w)))) as [end_|e];
    [|split; reflexivity].
  rewrite (generate_platform _ _ (args_get args1 "platform" "twitter")
                             (args_get args2 "platform" "twitter")).
  destruct (generate _ _ (args_get args2 "platform" "twitter") start end_
                     (after_clock w)) as [[r|e] w'].
  - cbn [timeSeries topics emotions graph meta meta_from meta_to].
    repeat split; reflexivity.
  - split; reflexivity.
Qed.

End Claims.

(** C3, at the failing input.  A request without parameters, handled while
    the clock passes from 2024-01-31 to 2024-02-01 between the two readings
    of the handler, is answered with 32 points, from 2024-01-01 to
    2024-02-01, where the claim has 31. *)
Theorem default_window_across_midnight :
  exists r w' first final,
    get_dashboard [] world_midnight = (Ok r, w')
    /\ List.length (timeSeries r) = 32%nat
    /\ nth_error (timeSeries r) 0 = Some first
    /\ date first = "2024-01-01"%string
    /\ nth_error (timeSeries r) 31 = Some final
    /\ date final = "2024-02-01"%string
    /\ meta r = mk_meta "2024-01-01" "2024-02-01" "twitter".
Proof.
  assert (Hd : default_from world_midnight
               = Ok (mk_datetime 2024 1 1 23 59 59 999999))
    by (vm_compute; reflexivity).
  assert (Hs : Text.strptime (args_get [] "from"
                  (Text.strftime (mk_datetime 2024 1 1 23 59 59 999999)))
               = Ok (mk_datetime 2024 1 1 0 0 0 0)) by (vm_compute; reflexivity).
  assert (He : Text.strptime (args_get [] "to"
                  (Text.strftime (now2 world_midnight)))
               = Ok (mk_datetime 2024 2 1 0 0 0 0)) by (vm_compute; reflexivity).
  destruct (get_dashboard_total _ _ _ _ _ Hd Hs He) as (r & w' & H).
  pose proof (get_dashboard_dates _ _ _ _ _ _ _ Hd Hs He H) as Hdates.
  replace (Datetime.toordinal (mk_datetime 2024 2 1 0 0 0 0)
           - Datetime.toordinal (mk_datetime 2024 1 1 0 0 0 0) + 1) with 32 in Hdates
    by (vm_compute; reflexivity).
  destruct (dates_nth _ _ 32 0 Hdates ltac:(lia)) as (first & Hn0 & Hd0).
  destruct (dates_nth _ _ 32 31 Hdates ltac:(lia)) as (final & Hn1 & Hd1).
  exists r, w', first, final. split; [exact H|].
  split; [rewrite <- (length_map date), Hdates, length_map; reflexivity|].
  split; [exact Hn0|]. split; [rewrite Hd0; vm_compute; reflexivity|].
  split; [exact Hn1|]. split; [rewrite Hd1; vm_compute; reflexivity|].
  destruct (get_dashboard_meta _ _ _ _ H) as (d & Hd' & E).
  rewrite Hd in Hd'. injection Hd' as <-. rewrite E. vm_compute. reflexivity.
Qed.

(** C1, as stated, fails: with [from] two days after [to] the request is
    answered with an empty series, while (to - from in days) + 1 is -1. *)
Lemma time_series_length_counterexample :
  exists start end_ r w',
    Text.strptime "2024-01-03" = Ok start
    /\ Text.strptime "2024-01-01" = Ok end_
    /\ get_dashboard args_reversed world_noon = (Ok r, w')
    /\ timeSeries r = []
    /\ Datetime.toordinal end_ - Datetime.toordinal start + 1 = -1
    /\ Z.of_nat (List.length (timeSeries r))
       <> Datetime.toordinal end_ - Datetime.toordinal start + 1.
Proof.
  assert (Hd : default_from world_noon = Ok (mk_datetime 2024 5 16 12 30 0 0))
    by (vm_compute; reflexivity).
  assert (Hs : Text.strptime (args_get args_reversed "from"
                  (Text.strftime (mk_datetime 2024 5 16 12 30 0 0)))
               = Ok (mk_datetime 2024 1 3 0 0 0 0)) by (vm_compute; reflexivity).
  assert (He : Text.strptime (args_get args_reversed "to"
                  (Text.strftime (now2 world_noon)))
               = Ok (mk_datetime 2024 1 1 0 0 0 0)) by (vm_compute; reflexivity).
  destruct (get_dashboard_total _ _ _ _ _ Hd Hs He) as (r & w' & H).
  pose proof (get_dashboard_dates _ _ _ _ _ _ _ Hd Hs He H) as Hdates.
  assert (Hempty : timeSeries r = []).
  { change (range _) with (@nil Z) in Hdates.
    destruct (timeSeries r); [reflexivity | discriminate]. }
  exists (mk_datetime 2024 1 3 0 0 0 0), (mk_datetime 2024 1 1 0 0 0 0), r, w'.
  split; [vm_compute; reflexivity|]. split; [vm_compute; reflexivity|].
  split; [exact H|]. split; [exact Hempty|].
  split; [vm_compute; reflexivity|].
  rewrite Hempty. vm_compute. discriminate.
Qed.

(** ** The theorems at concrete requests *)

Lemma time_series_covers_range_witness :
  exists r w',
    get_dashboard args_three_days world_noon = (Ok r, w')
    /\ Z.of_nat (List.length (timeSeries r)) = 3.
Proof.
  destruct (time_series_covers_range args_three_days world_noon
              (mk_datetime 2024 5 16 12 30 0 0)
              (mk_datetime 2024 1 1 0 0 0 0) (mk_datetime 2024 1 3 0 0 0 0))
    as (r & w' & H & Hlen & _);
    [vm_compute; reflexivity | vm_compute; reflexivity | vm_compute; reflexivity |].
  exists r, w'. split; [exact H | exact Hlen].
Defined.

Lemma graph_shape_witness :
  exists r w',
    get_dashboard args_three_days world_noon = (Ok r, w')
    /\ List.length (nodes (graph r)) = 40%nat
    /\ List.length (links (graph r)) = 80%nat.
Proof.
  destruct three_days_answered as (r & w' & p & H & _).
  exists r, w'. split; [exact H|].
  destruct (graph_shape _ _ _ _ H) as (Hn & Hl & _). split; [exact Hn | exact Hl].
Defined.

Lemma malformed_date_is_unhandled_witness :
  exists e w',
    get_dashboard args_malformed world_noon = (Raise e, w')
    /\ http_status (fst (get_dashboard args_malformed world_noon)) = 500
    /\ ~ (400 <= http_status (fst (get_dashboard args_malformed world_noon)) <= 499)
    /\ (forall d30, default_from world_noon = Ok d30 -> e = ValueError).
Proof.
  apply (malformed_date_is_unhandled args_malformed world_noon "2024-13-45").
  - left. reflexivity.
  - intros dt. vm_compute. discriminate.
Defined.

Lemma reversed_range_is_empty_witness :
  exists r w', get_dashboard args_reversed world_noon = (Ok r, w') /\ timeSeries r = [].
Proof.
  apply (proj2 (reversed_range_is_empty args_reversed world_noon
                  (mk_datetime 2024 5 16 12 30 0 0)
                  (mk_datetime 2024 1 3 0 0 0 0) (mk_datetime 2024 1 1 0 0 0 0)
                  ltac:(vm_compute; reflexivity) ltac:(vm_compute; reflexivity)
                  ltac:(vm_compute; reflexivity) ltac:(vm_compute; reflexivity))).
Defined.

Lemma emotion_values_bounded_witness :
  exists r w' p,
    get_dashboard args_three_days world_noon = (Ok r, w')
    /\ In p (timeSeries r)
    /\ (0 <= anxiety p <= (1 + 0.6) / 2)%R.
Proof.
  destruct three_days_answered as (r & w' & p & H & Hin).
  exists r, w', p. split; [exact H|]. split; [exact Hin|].
  exact (proj1 (proj1 (emotion_values_bounded _ _ _ _ _ H Hin))).
Defined.

Lemma count_nonnegative_witness :
  exists r w' p,
    get_dashboard args_three_days world_noon = (Ok r, w')
    /\ In p (timeSeries r) /\ 0 <= count p.
Proof.
  destruct three_days_answered as (r & w' & p & H & Hin).
  exists r, w', p. split; [exact H|]. split; [exact Hin|].
  exact (proj1 (count_nonnegative _ _ _ _ _ H Hin)).
Defined.

Lemma topics_and_emotions_static_witness :
  exists r w',
    get_dashboard args_three_days world_noon = (Ok r, w')
    /\ topics r = static_topics /\ emotions r = static_emotions.
Proof.
  destruct three_days_answered as (r & w' & p & H & _).
  exists r, w'. split; [exact H|].
  destruct (topics_and_emotions_static _ _ _ _ H) as (Ht & _ & He & _).
  split; [exact Ht | exact He].
Defined.

Lemma meta_echoes_parameters_witness :
  exists r w',
    get_dashboard args_three_days world_noon = (Ok r, w')
    /\ meta r = mk_meta "2024-01-01" "2024-01-03" "reddit".
Proof.
  destruct three_days_answered as (r & w' & p & H & _).
  exists r, w'. split; [exact H|].
  destruct (meta_echoes_parameters _ _ _ _ H) as (d30 & _ & Hf & Ht & Hp).
  destruct (meta r) as [f t pl]. cbn in Hf, Ht, Hp. subst. reflexivity.
Defined.

Lemma platform_only_in_meta_witness :
  match get_dashboard args_three_days world_noon,
        get_dashboard args_three_days_other world_noon with
  | (Ok r1, w1), (Ok r2, w2) =>
      timeSeries r1 = timeSeries r2 /\ topics r1 = topics r2
      /\ emotions r1 = emotions r2 /\ graph r1 = graph r2
      /\ meta_from (meta r1) = meta_from (meta r2)
      /\ meta_to (meta r1) = meta_to (meta r2)
      /\ w1 = w2
  | (Raise e1, w1), (Raise e2, w2) => e1 = e2 /\ w1 = w2
  | _, _ => False
  end.
Proof.
  apply (platform_only_in_meta args_three_days args_three_days_other world_noon);
    reflexivity.
Defined.


(** * More of the handler *)

(** ** What the handler does to the world *)

Section WorldFacts.
Context {RS : RandomSource}.

Lemma keeps_clock_ret {A} (a : A) : keeps_clock (ret a).
Proof. intros w. split; reflexivity. Qed.

Lemma keeps_clock_lift {A} (r : result A) : keeps_clock (lift r).
Proof. intros w. split; reflexivity. Qed.

Lemma keeps_clock_raise {A} (e : exn) : keeps_clock (raise (A := A) e).
Proof. intros w. split; reflexivity. Qed.

Lemma keeps_clock_bind {A B} (m : M A) (k : A -> M B) :
  keeps_clock m -> (forall a, keeps_clock (k a)) -> keeps_clock (bind m k).
Proof.
  intros Hm Hk w. unfold bind. destruct (Hm w) as [C R].
  destruct (m w) as [[a|e] w1]; cbn [snd] in *.
  - destruct (Hk a w1) as [C' R']. split; congruence.
  - split; assumption.
Qed.

Lemma keeps_clock_mapM {A B} (f : A -> M B) l :
  (forall x, keeps_clock (f x)) -> keeps_clock (mapM f l).
Proof.
  intros Hf. induction l as [|x xs IH]; [apply keeps_clock_ret|].
  cbn [mapM]. apply keeps_clock_bind; [apply Hf|]. intros y.
  apply keeps_clock_bind; [exact IH|]. intros ys. apply keeps_clock_ret.
Qed.

Lemma keeps_clock_random : keeps_clock random_random.
Proof.
  intros w. unfold random_random. destruct (gen_random (rng w)).
  split; reflexivity.
Qed.

Lemma keeps_clock_randint a b : keeps_clock (random_randint a b).
Proof.
  intros w. unfold random_randint.
  destruct (a <=? b); [destruct (gen_randint a b (rng w))|]; split; reflexivity.
Qed.

Lemma keeps_clock_sample {A} (pop : list A) k : keeps_clock (random_sample pop k).
Proof.
  intros w. unfold random_sample.
  destruct (k <=? List.length pop)%nat;
    [destruct (gen_sample (List.length pop) k (rng w))|]; split; reflexivity.
Qed.

Lemma keeps_clock_point start i : keeps_clock (time_series_point start i).
Proof.
  unfold time_series_point.
  repeat first [ apply keeps_clock_ret | apply keeps_clock_lift
               | apply keeps_clock_random
               | apply keeps_clock_bind; [|intros ?] ].
Qed.

Lemma keeps_clock_node i : keeps_clock (make_node i).
Proof.
  unfold make_node.
  repeat first [ apply keeps_clock_ret | apply keeps_clock_randint
               | apply keeps_clock_random
               | apply keeps_clock_bind; [|intros ?] ].
Qed.

Lemma keeps_clock_link ns i : keeps_clock (make_link ns i).
Proof.
  unfold make_link. apply keeps_clock_bind; [apply keeps_clock_sample|].
  intros [|a [|b [|? ?]]]; try apply keeps_clock_raise.
  apply keeps_clock_bind; [apply keeps_clock_random|]. intros u.
  apply keeps_clock_ret.
Qed.

Lemma keeps_clock_generate sd ed p start end_ :
  keeps_clock (generate sd ed p start end_).
Proof.
  unfold generate.
  apply keeps_clock_bind; [apply keeps_clock_mapM, keeps_clock_point|]. intros ts.
  apply keeps_clock_bind; [apply keeps_clock_mapM, keeps_clock_node|]. intros ns.
  apply keeps_clock_bind; [apply keeps_clock_mapM, keeps_clock_link|]. intros ls.
  apply keeps_clock_ret.
Qed.

Lemma clock_blind_ret {A} (a : A) : clock_blind (ret a).
Proof. intros w1 w2 H. split; [reflexivity | exact H]. Qed.

Lemma clock_blind_lift {A} (r : result A) : clock_blind (lift r).
Proof. intros w1 w2 H. split; [reflexivity | exact H]. Qed.

Lemma clock_blind_raise {A} (e : exn) : clock_blind (raise (A := A) e).
Proof. intros w1 w2 H. split; [reflexivity | exact H]. Qed.

Lemma clock_blind_bind {A B} (m : M A) (k : A -> M B) :
  clock_blind m -> (forall a, clock_blind (k a)) -> clock_blind (bind m k).
Proof.
  intros Hm Hk w1 w2 H. unfold bind. destruct (Hm w1 w2 H) as [E G].
  destruct (m w1) as [[a1|e1] v1], (m w2) as [[a2|e2] v2]; cbn [fst snd] in *;
    try discriminate.
  - injection E as <-. apply Hk, G.
  - injection E as <-. split; [reflexivity | exact G].
Qed.

Lemma clock_blind_mapM {A B} (f : A -> M B) l :
  (forall x, clock_blind (f x)) -> clock_blind (mapM f l).
Proof.
  intros Hf. induction l as [|x xs IH]; [apply clock_blind_ret|].
  cbn [mapM]. apply clock_blind_bind; [apply Hf|]. intros y.
  apply clock_blind_bind; [exact IH|]. intros ys. apply clock_blind_ret.
Qed.

Lemma clock_blind_random : clock_blind random_random.
Proof.
  intros w1 w2 H. unfold random_random. rewrite H.
  destruct (gen_random (rng w2)). split; reflexivity.
Qed.

Lemma clock_blind_randint a b : clock_blind (random_randint a b).
Proof.
  intros w1 w2 H. unfold random_randint. rewrite H.
  destruct (a <=? b); [destruct (gen_randint a b (rng w2))|];
    split; (reflexivity || assumption).
Qed.

Lemma clock_blind_sample {A} (pop : list A) k : clock_blind (random_sample pop k).
Proof.
  intros w1 w2 H. unfold random_sample. rewrite H.
  destruct (k <=? List.length pop)%nat;
    [destruct (gen_sample (List.length pop) k (rng w2))|];
    split; (reflexivity || assumption).
Qed.

Lemma clock_blind_generate sd ed p start end_ :
  clock_blind (generate sd ed p start end_).
Proof.
  unfold generate.
  apply clock_blind_bind.
  { apply clock_blind_mapM. intros i. unfold time_series_point.
    repeat first [ apply clock_blind_ret | apply clock_blind_lift
                 | apply clock_blind_random
                 | apply clock_blind_bind; [|intros ?] ]. }
  intros ts. apply clock_blind_bind.
  { apply clock_blind_mapM. intros i. unfold make_node.
    repeat first [ apply clock_blind_ret | apply clock_blind_randint
                 | apply clock_blind_random
                 | apply clock_blind_bind; [|intros ?] ]. }
  intros ns. apply clock_blind_bind.
  { apply clock_blind_mapM. intros i. unfold make_link.
    apply clock_blind_bind; [apply clock_blind_sample|].
    intros [|a [|b [|? ?]]]; try apply clock_blind_raise.
    apply clock_blind_bind; [apply clock_blind_random|]. intros u.
    apply clock_blind_ret. }
  intros ls. apply clock_blind_ret.
Qed.

End WorldFacts.


(** ** More on dates and numbers *)

Module MoreFacts.
Import Calendar CalendarFacts Datetime Text TextFacts DatetimeFacts NumberFacts.

(** Going 30 days back from a day among the first 30 leaves the calendar. *)
Lemma datetime_minus_30_overflow dt :
  valid_datetime dt = true ->
  toordinal dt <= 30 ->
  datetime_sub_timedelta dt (mk_timedelta 30 0 0) = Raise OverflowError.
Proof.
  intros V Hk. pose proof (toordinal_range dt V) as Ho.
  apply valid_datetime_iff in V. destruct V as (_ & Hh & Hm & Hs & Hus).
  unfold datetime_sub_timedelta.
  change (timedelta_neg (mk_timedelta 30 0 0)) with (Ok (mk_timedelta (-30) 0 0)).
  cbn [result_bind].
  unfold datetime_add, timedelta_add, timedelta_new.
  unfold _MAXORDINAL in *.
  set (secs := hour dt * 3600 + minute dt * 60 + second dt).
  assert (E1 : microsecond dt / 1000000 = 0) by (apply Z.div_small; lia).
  assert (E2 : microsecond dt mod 1000000 = microsecond dt)
    by (apply Z.mod_small; lia).
  assert (E3 : secs / 86400 = 0) by (apply Z.div_small; unfold secs; lia).
  assert (E4 : secs mod 86400 = secs) by (apply Z.mod_small; unfold secs; lia).
  rewrite E1, E2, Z.add_0_r, E3, E4, Z.add_0_r.
  destruct (Z.abs (toordinal dt) >? 999999999) eqn:A1;
    [apply Z.gtb_lt in A1; lia|].
  cbn [result_bind td_days td_seconds td_microseconds].
  rewrite !Z.add_0_r, E1, E2, Z.add_0_r, E3, E4, Z.add_0_r.
  destruct (Z.abs (toordinal dt + -30) >? 999999999) eqn:A2; [reflexivity|].
  cbn [result_bind td_days td_seconds td_microseconds].
  replace (0 <? toordinal dt + -30) with false by (symmetry; apply Z.ltb_ge; lia).
  reflexivity.
Qed.

(** [strftime] prints the date and nothing of the time of day. *)
Lemma strftime_combine n hh mm ss us :
  strftime (combine_fromordinal n hh mm ss us) = day_text n.
Proof.
  unfold day_text, combine_fromordinal. destruct (_ord2ymd n) as [[y m] d].
  reflexivity.
Qed.

Lemma tail_text_length m d :
  1 <= m <= 12 -> 1 <= d <= 31 -> String.length (tail_text m d) = 6%nat.
Proof.
  intros Hm Hd.
  assert (T : forallb (fun m => forallb (fun d =>
                (m <? 1) || (d <? 1)
                || Nat.eqb (String.length (tail_text m d)) 6) (range 32))
                      (range 13) = true)
    by (vm_compute; reflexivity).
  pose proof (forallb_range _ 13 T m ltac:(lia)) as T1. cbv beta in T1.
  pose proof (forallb_range _ 32 T1 d ltac:(lia)) as T2. cbv beta in T2.
  apply orb_true_iff in T2. destruct T2 as [T2|T2]; [|apply Nat.eqb_eq, T2].
  apply orb_true_iff in T2. destruct T2; bool_props; lia.
Qed.

Lemma length_append (s t : string) :
  String.length (s ++ t) = (String.length s + String.length t)%nat.
Proof. induction s as [|c s IH]; cbn; [reflexivity | rewrite IH; reflexivity]. Qed.

(** Two texts that end in parts of the same length agree part by part. *)
Lemma append_inj (s1 s2 t1 t2 : string) :
  String.length t1 = String.length t2 ->
  (s1 ++ t1)%string = (s2 ++ t2)%string -> s1 = s2 /\ t1 = t2.
Proof.
  intros L. revert s2. induction s1 as [|c s1 IH]; intros [|c2 s2] E; cbn in E.
  - auto.
  - exfalso. apply (f_equal String.length) in E. cbn in E.
    rewrite length_append in E. lia.
  - exfalso. apply (f_equal String.length) in E. cbn in E.
    rewrite length_append in E. lia.
  - injection E as -> E. destruct (IH _ E) as [-> ->]. auto.
Qed.

(** [str] of an integer tells the integer. *)
Lemma str_int_inj a b : str_int a = str_int b -> a = b.
Proof.
  intros E. unfold str_int in E.
  assert (N : forall z, NilZero.int_of_string (NilZero.string_of_int (Z.to_int z))
                        = Some (Z.to_int z)).
  { intros z. apply NilZero.isi; intros C; pose proof (DecimalZ.of_to z) as P;
      rewrite C in P; cbn in P; subst z; discriminate. }
  pose proof (N a) as Na. rewrite E, N in Na. injection Na as Na.
  rewrite <- (DecimalZ.of_to a), <- (DecimalZ.of_to b), Na. reflexivity.
Qed.

(** A year of the calendar is printed on one to four characters, and on four
    exactly from year 1000 on. *)
Lemma str_int_year_length y :
  1 <= y <= 9999 ->
  (1 <= String.length (str_int y) <= 4)%nat
  /\ (1000 <= y <-> String.length (str_int y) = 4%nat).
Proof.
  intros H.
  assert (T : forallb (fun y =>
                (y <? 1)
                || (Nat.leb 1 (String.length (str_int y))
                    && Nat.leb (String.length (str_int y)) 4
                    && Bool.eqb (1000 <=? y)
                                (Nat.eqb (String.length (str_int y)) 4)))
                (range 10000) = true) by (vm_compute; reflexivity).
  pose proof (forallb_range _ 10000 T y ltac:(lia)) as T1. cbv beta in T1.
  apply orb_true_iff in T1. destruct T1 as [T1|T1]; [bool_props; lia|].
  apply andb_true_iff in T1. destruct T1 as [T1 T3].
  apply andb_true_iff in T1. destruct T1 as [T1 T2].
  apply Nat.leb_le in T1, T2. apply Bool.eqb_prop in T3.
  split; [lia|]. split; intros Hy.
  - apply Nat.eqb_eq. rewrite <- T3. apply Z.leb_le, Hy.
  - apply Z.leb_le. rewrite T3. apply Nat.eqb_eq, Hy.
Qed.

Lemma tail_text_inj m1 d1 m2 d2 :
  1 <= m1 <= 12 -> 1 <= d1 <= 31 -> 1 <= m2 <= 12 -> 1 <= d2 <= 31 ->
  tail_text m1 d1 = tail_text m2 d2 -> m1 = m2 /\ d1 = d2.
Proof.
  intros Hm1 Hd1 Hm2 Hd2 E.
  pose proof (tail_text_parses m1 d1 Hm1 Hd1) as T1.
  pose proof (tail_text_parses m2 d2 Hm2 Hd2) as T2.
  unfold tail_text_ok in T1, T2. rewrite E in T1.
  destruct (re_tail (tail_text m2 d2)) as [|[[m' d'] rest] l]; [discriminate|].
  destruct rest; [|discriminate].
  apply andb_true_iff in T1. destruct T1 as [A1 B1].
  apply andb_true_iff in T2. destruct T2 as [A2 B2].
  apply Z.eqb_eq in A1, B1, A2, B2. split; congruence.
Qed.

Lemma strftime_tail dt :
  strftime dt = (str_int (year dt) ++ tail_text (month dt) (day dt))%string.
Proof. reflexivity. Qed.

(** The text of a calendar date has seven to ten characters, and ten exactly
    from year 1000 on. *)
Lemma strftime_length dt :
  valid_ymd (year dt) (month dt) (day dt) = true ->
  (7 <= String.length (strftime dt) <= 10)%nat
  /\ (1000 <= year dt <-> String.length (strftime dt) = 10%nat).
Proof.
  intros V. apply valid_ymd_iff in V. destruct V as (Hy & Hm & Hd).
  pose proof (month_bounds (_is_leap (year dt)) (month dt) Hm) as (_ & H31 & _).
  pose proof (tail_text_length (month dt) (day dt) Hm ltac:(lia)) as T.
  destruct (str_int_year_length (year dt) Hy)
    as (L & L4).
  rewrite strftime_tail, length_append, T. split; [lia|].
  rewrite L4. lia.
Qed.

Lemma day_text_length n :
  1 <= n <= _MAXORDINAL ->
  (7 <= String.length (day_text n) <= 10)%nat
  /\ (first_four_digit_day <= n <-> String.length (day_text n) = 10%nat).
Proof.
  intros H. destruct (combine_fromordinal_ymd n 0 0 0 0 H) as [V O].
  destruct (strftime_length _ V) as [L L10]. fold (day_text n) in L, L10.
  split; [exact L|]. rewrite <- L10.
  rewrite (four_digit_year _ _ _ V).
  fold (toordinal (combine_fromordinal n 0 0 0 0)). rewrite O. reflexivity.
Qed.

(** [%Y] wants four digits: a text that brings fewer before the first [-]
    is not read. *)
Lemma re_Y_short s t :
  (String.length s <= 3)%nat -> re_Y (s ++ String "-" t)%string = [].
Proof.
  intros L. destruct s as [|a [|b [|c [|? ?]]]]; cbn [String.length] in L;
    try lia; cbn [append]; unfold re_Y.
  - destruct t as [|x [|y [|z t]]]; reflexivity.
  - destruct t as [|x [|y t]]; try reflexivity.
    change (is_digit "-") with false. rewrite andb_false_r. reflexivity.
  - destruct t as [|x t]; try reflexivity.
    change (is_digit "-") with false. rewrite !andb_false_r. reflexivity.
  - change (is_digit "-") with false. rewrite !andb_false_r. reflexivity.
Qed.

(** What [strftime] prints for a date before year 1000 is not read back. *)
Lemma strptime_short_year dt :
  valid_ymd (year dt) (month dt) (day dt) = true ->
  year dt < 1000 ->
  strptime (strftime dt) = Raise ValueError.
Proof.
  intros V Hy. apply valid_ymd_iff in V. destruct V as (Hy' & _).
  destruct (str_int_year_length (year dt) Hy') as (L & L4).
  assert (L3 : (String.length (str_int (year dt)) <= 3)%nat).
  { destruct (Nat.eq_dec (String.length (str_int (year dt))) 4) as [E|E];
      [apply L4 in E; lia | lia]. }
  unfold strptime, re_date. rewrite strftime_tail. unfold tail_text.
  change ("-" ++ zfill 2 (str_int (month dt)) ++ "-" ++ zfill 2 (str_int (day dt)))%string
    with (String "-" (zfill 2 (str_int (month dt)) ++ "-"
                        ++ zfill 2 (str_int (day dt))))%string.
  rewrite (re_Y_short _ _ L3). reflexivity.
Qed.

(** Different calendar dates have different texts. *)
Lemma strftime_inj d1 d2 :
  valid_ymd (year d1) (month d1) (day d1) = true ->
  valid_ymd (year d2) (month d2) (day d2) = true ->
  strftime d1 = strftime d2 ->
  year d1 = year d2 /\ month d1 = month d2 /\ day d1 = day d2.
Proof.
  intros V1 V2 E. apply valid_ymd_iff in V1, V2.
  destruct V1 as (Hy1 & Hm1 & Hd1). destruct V2 as (Hy2 & Hm2 & Hd2).
  pose proof (month_bounds (_is_leap (year d1)) (month d1) Hm1) as (_ & A1 & _).
  pose proof (month_bounds (_is_leap (year d2)) (month d2) Hm2) as (_ & A2 & _).
  rewrite !strftime_tail in E. apply append_inj in E.
  - destruct E as [Ey Et]. apply str_int_inj in Ey.
    apply tail_text_inj in Et; [|lia..]. destruct Et. auto.
  - rewrite !tail_text_length by lia. reflexivity.
Qed.

(** Different days have different texts. *)
Lemma day_text_inj a b :
  1 <= a <= _MAXORDINAL -> 1 <= b <= _MAXORDINAL ->
  day_text a = day_text b -> a = b.
Proof.
  intros Ha Hb E.
  destruct (combine_fromordinal_ymd a 0 0 0 0 Ha) as [Va Oa].
  destruct (combine_fromordinal_ymd b 0 0 0 0 Hb) as [Vb Ob].
  unfold day_text in E. destruct (strftime_inj _ _ Va Vb E) as (Ey & Em & Ed).
  rewrite <- Oa, <- Ob. unfold toordinal. rewrite Ey, Em, Ed. reflexivity.
Qed.

Lemma range_NoDup n : NoDup (range n).
Proof.
  unfold range. apply NoDup_map_NoDup_ForallPairs; [|apply seq_NoDup].
  intros i j _ _ E. lia.
Qed.

Lemma py_round_le (x : R) (k : Z) : (x <= IZR k)%R -> py_round x <= k.
Proof.
  intros H. destruct (base_Int_part x) as [Hlo _]. unfold py_round.
  assert (Hf : Int_part x <= k) by (apply le_IZR; lra).
  destruct (Rlt_dec _ _) as [L|L]; [exact Hf|].
  assert (Hlt : Int_part x < k) by (apply lt_IZR; lra).
  destruct (Rlt_dec _ _); [lia|]. destruct (Z.even _); lia.
Qed.

Lemma count_formula_le (i : Z) (u : R) :
  (0 <= u < 1)%R -> (200 + 40 * sin (IZR i / 6) + u * 60 <= IZR 300)%R.
Proof.
  intros Hu. pose proof (SIN_bound (IZR i / 6)) as [_ Hs]. lra.
Qed.

End MoreFacts.


(** * Further properties of the handler *)

Section Extras.
Context {RS : RandomSource} {RL : RandomSourceLaws RS}.
Import Calendar CalendarFacts Datetime Text TextFacts DatetimeFacts NumberFacts.
Import MoreFacts.

(** X1.  Whatever its outcome, a request leaves the sequence of clock
    readings as it is and consumes one or two of them; an answered request
    consumes exactly two. *)
Theorem request_reads_clock_twice args w x w' :
  get_dashboard args w = (x, w') ->
  clock w' = clock w
  /\ (clock_reads w' = S (clock_reads w) \/ clock_reads w' = S (S (clock_reads w)))
  /\ (forall r, x = Ok r -> clock_reads w' = S (S (clock_reads w))).
Proof.
  rewrite get_dashboard_unfold.
  destruct (default_from w) as [d30|e].
  2: { intros H. injection H as <- <-. cbn [clock clock_reads].
       repeat split; auto. discriminate. }
  cbv zeta.
  destruct (strptime (args_get args "from" (strftime d30))) as [start|e].
  2: { intros H. injection H as <- <-. unfold after_clock. cbn [clock clock_reads].
       repeat split; auto. }
  destruct (strptime (args_get args "to" (strftime (now2 w)))) as [end_|e].
  2: { intros H. injection H as <- <-. unfold after_clock. cbn [clock clock_reads].
       repeat split; auto. }
  intros H.
  destruct (keeps_clock_generate (args_get args "from" (strftime d30))
              (args_get args "to" (strftime (now2 w)))
              (args_get args "platform" "twitter") start end_ (after_clock w))
    as [C R].
  rewrite H in C, R. cbn [snd] in C, R. unfold after_clock in C, R.
  cbn [clock clock_reads] in C, R. repeat split; auto.
Qed.

(** X2.  A request whose resolved [from] or [to] does not parse raises
    [ValueError] right after the two clock readings: nothing was drawn from
    the generator. *)
Theorem date_error_draws_nothing args w d30 :
  default_from w = Ok d30 ->
  (forall dt, strptime (args_get args "from" (strftime d30)) <> Ok dt)
  \/ (forall dt, strptime (args_get args "to" (strftime (now2 w))) <> Ok dt) ->
  get_dashboard args w = (Raise ValueError, after_clock w)
  /\ rng (snd (get_dashboard args w)) = rng w.
Proof.
  intros Hd Hbad.
  assert (E : get_dashboard args w = (Raise ValueError, after_clock w)).
  { rewrite get_dashboard_unfold, Hd. cbv zeta.
    destruct (strptime (args_get args "from" (strftime d30))) as [start|e] eqn:Hs.
    2: { rewrite (strptime_raises _ _ Hs). reflexivity. }
    destruct (strptime (args_get args "to" (strftime (now2 w)))) as [end_|e] eqn:He.
    2: { rewrite (strptime_raises _ _ He). reflexivity. }
    exfalso. destruct Hbad as [B|B]; exact (B _ eq_refl). }
  split; [exact E|]. rewrite E. reflexivity.
Qed.

(** X3.  The default of [from] is computed before anything else, also when
    [from] is sent: with a clock reading among the first 30 days of year 1,
    every request raises [OverflowError] after one clock reading, whatever
    its parameters. *)
Theorem default_is_computed_first args w :
  valid_datetime (now1 w) = true ->
  toordinal (now1 w) <= 30 ->
  get_dashboard args w
  = (Raise OverflowError, mk_world (clock w) (S (clock_reads w)) (rng w)).
Proof.
  intros V H. rewrite get_dashboard_unfold. unfold default_from.
  rewrite datetime_minus_30_overflow by assumption. reflexivity.
Qed.

(** X4.  The nodes of every response carry the ids [user_0] to [user_39], in
    this order, and no id twice. *)
Theorem node_ids_are_the_forty_users args w r w' :
  get_dashboard args w = (Ok r, w') ->
  map node_id (nodes (graph r)) = map user_id (range 40)
  /\ NoDup (map node_id (nodes (graph r))).
Proof.
  intros H. apply get_dashboard_ok in H.
  destruct H as (d30 & start & end_ & _ & _ & _ & H).
  apply generate_ok in H. destruct H as (ts & w1 & ns & w2 & ls & _ & Hns & _ & ->).
  cbn [graph nodes]. apply nodes_ok in Hns.
  assert (E : map node_id ns = map user_id (range 40)).
  { apply (Forall2_map_eq _ _ _ _ _ Hns). intros i n _ (Hid & _). exact Hid. }
  split; [exact E|]. rewrite E.
  apply NoDup_map_NoDup_ForallPairs; [|apply range_NoDup].
  intros i j Hi Hj. apply range_In in Hi, Hj. apply user_id_inj; assumption.
Qed.

(** X5.  A request is read through the first value of [from], of [to] and of
    [platform] only: two query strings that agree on these three give the
    same outcome and the same world, whatever else they hold. *)
Theorem only_three_keys_matter args1 args2 w :
  supplied "from" args1 = supplied "from" args2 ->
  supplied "to" args1 = supplied "to" args2 ->
  supplied "platform" args1 = supplied "platform" args2 ->
  get_dashboard args1 w = get_dashboard args2 w.
Proof.
  intros Hf Ht Hp. rewrite !get_dashboard_unfold.
  destruct (default_from w) as [d30|e]; [|reflexivity].
  cbv zeta.
  rewrite (args_get_supplied args1 args2 "from" _ Hf).
  rewrite (args_get_supplied args1 args2 "to" _ Ht).
  rewrite (args_get_supplied args1 args2 "platform" _ Hp).
  reflexivity.
Qed.

(** X6.  The default window in general: a request without [from], [to] and
    [platform], with two valid clock readings, the first on 1000-01-31 or
    later and the second in year 1000 or later (so that both default texts
    carry a year of four digits, the only ones [strptime] reads), is
    answered; its series has max(0, 31 + the days from the first reading to
    the second) points, and [meta] names the day 30 days before the first
    reading, the day of the second, and ["twitter"]. *)
Theorem default_window args w :
  supplied "from" args = None -> supplied "to" args = None ->
  supplied "platform" args = None ->
  valid_datetime (now1 w) = true -> valid_datetime (now2 w) = true ->
  first_four_digit_day + 30 <= toordinal (now1 w) ->
  first_four_digit_day <= toordinal (now2 w) ->
  exists r w',
    get_dashboard args w = (Ok r, w')
    /\ Z.of_nat (List.length (timeSeries r))
       = Z.max 0 (toordinal (now2 w) - toordinal (now1 w) + 31)
    /\ meta r = mk_meta (day_text (toordinal (now1 w) - 30))
                        (strftime (now2 w)) "twitter".
Proof.
  intros Hf Ht Hp V1 V2 H1000 H2.
  pose proof (toordinal_range _ V1) as R1.
  assert (H30 : 30 < toordinal (now1 w))
    by (change first_four_digit_day with 364878 in H1000; lia).
  pose proof (datetime_minus_30 _ V1 H30) as Hd. fold (default_from w) in Hd.
  destruct (combine_fromordinal_ymd (toordinal (now1 w) - 30) (hour (now1 w))
              (minute (now1 w)) (second (now1 w)) (microsecond (now1 w))
              ltac:(lia)) as [Vd Od].
  pose proof (combine_fromordinal_year (toordinal (now1 w) - 30) (hour (now1 w))
                (minute (now1 w)) (second (now1 w)) (microsecond (now1 w))
                ltac:(lia)) as Yd.
  pose proof (strftime_combine (toordinal (now1 w) - 30) (hour (now1 w))
                (minute (now1 w)) (second (now1 w)) (microsecond (now1 w))) as Etext.
  set (d30 := combine_fromordinal _ _ _ _ _) in *.
  destruct (strftime_parses d30 Vd Yd) as (start & Hs & Os).
  pose proof V2 as V2'. apply valid_datetime_iff in V2'. destruct V2' as [V2' _].
  assert (Y2 : 1000 <= year (now2 w))
    by (apply (four_digit_year _ _ _ V2'); exact H2).
  destruct (strftime_parses (now2 w) V2' Y2) as (end_ & He & Oe).
  assert (Hs' : strptime (args_get args "from" (strftime d30)) = Ok start)
    by (unfold args_get; rewrite Hf; exact Hs).
  assert (He' : strptime (args_get args "to" (strftime (now2 w))) = Ok end_)
    by (unfold args_get; rewrite Ht; exact He).
  destruct (get_dashboard_total _ _ _ _ _ Hd Hs' He') as (r & w' & H).
  pose proof (get_dashboard_dates _ _ _ _ _ _ _ Hd Hs' He' H) as Hdates.
  exists r, w'. split; [exact H|]. split.
  - rewrite <- (length_map date), Hdates, length_map, range_length. lia.
  - destruct (get_dashboard_meta _ _ _ _ H) as (d & Hd' & E).
    rewrite Hd in Hd'. injection Hd' as <-. rewrite E.
    unfold args_get. rewrite Hf, Ht, Hp, Etext. reflexivity.
Qed.

(** X7.  The [count] of every point of every response is between 160 and
    300. *)
Theorem count_range args w r w' p :
  get_dashboard args w = (Ok r, w') -> In p (timeSeries r) ->
  160 <= count p <= 300.
Proof.
  intros H Hp. apply get_dashboard_ok in H.
  destruct H as (d30 & start & end_ & _ & _ & _ & H).
  apply generate_ok in H. destruct H as (ts & w1 & ns & w2 & ls & Hts & _ & _ & ->).
  cbn [timeSeries] in Hp. apply mapM_ok in Hts.
  assert (F : Forall (fun p => 160 <= count p <= 300) ts).
  { apply (Forall2_Forall_r _ _ _ _ Hts).
    intros i q _ (v1 & v2 & Hq). apply time_series_point_ok in Hq.
    destruct Hq as (td & d & u1 & u2 & u3 & u4 & _ & _ & H1 & _ & _ & _ & ->).
    cbn [count]. split.
    - apply py_round_ge, count_formula_ge, H1.
    - apply py_round_le, count_formula_le, H1. }
  rewrite Forall_forall in F. apply F, Hp.
Qed.

(** X8.  No series is longer than the calendar: a response has at most
    3652059 points, the number of days from 0001-01-01 to 9999-12-31. *)
Theorem time_series_length_bound args w r w' :
  get_dashboard args w = (Ok r, w') ->
  Z.of_nat (List.length (timeSeries r)) <= _MAXORDINAL.
Proof.
  intros H. pose proof H as H0. apply get_dashboard_ok in H0.
  destruct H0 as (d30 & start & end_ & Hd & Hs & He & _).
  pose proof (get_dashboard_dates _ _ _ _ _ _ _ Hd Hs He H) as Hdates.
  destruct (strptime_midnight _ _ Hs) as (Vs & _).
  destruct (strptime_midnight _ _ He) as (Ve & _).
  pose proof (toordinal_range start Vs). pose proof (toordinal_range end_ Ve).
  rewrite <- (length_map date), Hdates, length_map, range_length. lia.
Qed.

(** X9.  With [from] and [to] both sent, the clock has no part in the
    outcome: in two worlds with the same generator state, whatever their
    clocks read (as long as the default of [from] can be computed in both),
    the outcomes are equal and the generator ends in the same state. *)
Theorem explicit_dates_ignore_clock args w1 w2 f t d1 d2 :
  supplied "from" args = Some f -> supplied "to" args = Some t ->
  default_from w1 = Ok d1 -> default_from w2 = Ok d2 ->
  rng w1 = rng w2 ->
  fst (get_dashboard args w1) = fst (get_dashboard args w2)
  /\ rng (snd (get_dashboard args w1)) = rng (snd (get_dashboard args w2)).
Proof.
  intros Hf Ht H1 H2 Hr. rewrite !get_dashboard_unfold, H1, H2. cbv zeta.
  assert (Af : forall d, args_get args "from" d = f)
    by (intros d; unfold args_get; rewrite Hf; reflexivity).
  assert (At : forall d, args_get args "to" d = t)
    by (intros d; unfold args_get; rewrite Ht; reflexivity).
  rewrite !Af, !At.
  destruct (strptime f) as [start|e]; [|split; [reflexivity | exact Hr]].
  destruct (strptime t) as [end_|e]; [|split; [reflexivity | exact Hr]].
  apply clock_blind_generate. exact Hr.
Qed.

(** X10.  Adding whole days to a date and subtracting the date again gives
    the days back: for a valid [start] and a number of days that stays in
    the calendar, [start + timedelta(days=k)] is a valid date whose ordinal
    is [k] more, and [(start + timedelta(days=k)) - start] is [k] days. *)
Theorem add_days_then_subtract start k :
  valid_datetime start = true ->
  0 < toordinal start + k <= _MAXORDINAL ->
  exists d,
    datetime_add start (mk_timedelta k 0 0) = Ok d
    /\ valid_datetime d = true
    /\ toordinal d = toordinal start + k
    /\ datetime_sub d start = Ok (mk_timedelta k 0 0).
Proof.
  intros V Hk. pose proof (toordinal_range start V) as Ho.
  rewrite (datetime_add_days start k V Hk).
  destruct (combine_fromordinal_ymd (toordinal start + k) (hour start)
              (minute start) (second start) (microsecond start)
              ltac:(lia)) as [Vd Od].
  set (d := combine_fromordinal _ _ _ _ _) in *.
  assert (T : hour d = hour start /\ minute d = minute start
              /\ second d = second start /\ microsecond d = microsecond start).
  { unfold d, combine_fromordinal.
    destruct (_ord2ymd (toordinal start + k)) as [[y m] dd]. cbn. auto. }
  destruct T as (T1 & T2 & T3 & T4).
  exists d. split; [reflexivity|].
  pose proof V as V'. apply valid_datetime_iff in V'.
  destruct V' as (_ & Hh & Hm & Hs & Hus).
  split; [apply valid_datetime_iff; rewrite T1, T2, T3, T4; auto|].
  split; [exact Od|].
  unfold datetime_sub. rewrite T1, T2, T3, T4, Od.
  replace (toordinal start + k - toordinal start) with k by lia.
  rewrite !Z.sub_diag. apply timedelta_of_days_ok. unfold _MAXORDINAL in *. lia.
Qed.

(** X11.  Parsing normalises from year 1000 on: whatever text [strptime]
    accepts for a date in year 1000 or later, printing the parsed date gives
    a text of ten characters that parses to the same date.  For a date before
    year 1000 (accepted as [0987-06-05], say) the printed text has a shorter
    year, and [strptime] rejects it. *)
Theorem strptime_normal_form s dt :
  strptime s = Ok dt ->
  (1000 <= year dt ->
     String.length (strftime dt) = 10%nat /\ strptime (strftime dt) = Ok dt)
  /\ (year dt < 1000 -> strptime (strftime dt) = Raise ValueError).
Proof.
  intros H. destruct (strptime_midnight _ _ H) as (V & M1 & M2 & M3 & M4).
  apply valid_datetime_iff in V. destruct V as [V _].
  split; intros Hy.
  - split; [apply (strftime_length dt V), Hy|].
    rewrite (strptime_strftime dt V Hy). destruct dt as [y m d hh mm ss us].
    cbn in M1, M2, M3, M4. subst. reflexivity.
  - apply strptime_short_year; [exact V | exact Hy].
Qed.

(** X12.  The dates of every response are pairwise different texts of seven
    to ten characters, and of ten characters each when [meta.from] is in
    year 1000 or later. *)
Theorem dates_distinct_and_ten_long args w r w' :
  get_dashboard args w = (Ok r, w') ->
  NoDup (map date (timeSeries r))
  /\ Forall (fun p => (7 <= String.length (date p) <= 10)%nat) (timeSeries r)
  /\ (forall start,
        strptime (meta_from (meta r)) = Ok start -> 1000 <= year start ->
        Forall (fun p => String.length (date p) = 10%nat) (timeSeries r)).
Proof.
  intros H. pose proof H as H0. apply get_dashboard_ok in H0.
  destruct H0 as (d30 & start & end_ & Hd & Hs & He & _).
  pose proof (get_dashboard_dates _ _ _ _ _ _ _ Hd Hs He H) as Hdates.
  destruct (strptime_midnight _ _ Hs) as (Vs & _).
  destruct (strptime_midnight _ _ He) as (Ve & _).
  pose proof (toordinal_range start Vs). pose proof (toordinal_range end_ Ve).
  assert (Hin : forall p, In p (timeSeries r) ->
            exists i, date p = day_text (toordinal start + i)
                      /\ 0 <= i < toordinal end_ - toordinal start + 1).
  { intros p Hp.
    assert (Hi : In (date p) (map date (timeSeries r))) by (apply in_map, Hp).
    rewrite Hdates in Hi. apply in_map_iff in Hi.
    destruct Hi as (i & <- & Hi). apply range_In in Hi. exists i. auto. }
  split; [|split].
  - rewrite Hdates. apply NoDup_map_NoDup_ForallPairs; [|apply range_NoDup].
    intros i j Hi Hj E. apply range_In in Hi, Hj.
    apply day_text_inj in E; lia.
  - apply Forall_forall. intros p Hp. destruct (Hin p Hp) as (i & -> & Hi).
    apply day_text_length. lia.
  - intros start' Hs' Hy.
    destruct (get_dashboard_meta _ _ _ _ H) as (d & Hd' & E).
    rewrite Hd in Hd'. injection Hd' as <-.
    rewrite E in Hs'. cbn [meta_from] in Hs'. rewrite Hs in Hs'.
    injection Hs' as <-.
    pose proof Vs as Vs'. apply valid_datetime_iff in Vs'. destruct Vs' as [Vs' _].
    pose proof (proj1 (four_digit_year _ _ _ Vs') Hy) as Hf.
    fold (toordinal start) in Hf.
    apply Forall_forall. intros p Hp. destruct (Hin p Hp) as (i & -> & Hi).
    apply day_text_length; lia.
Qed.

(** X13.  A response can be read back from its own [meta]: [meta.from] and
    [meta.to] parse, and the dates of the series are the days from the one to
    the other, in order. *)
Theorem series_follows_meta args w r w' :
  get_dashboard args w = (Ok r, w') ->
  exists start end_,
    strptime (meta_from (meta r)) = Ok start
    /\ strptime (meta_to (meta r)) = Ok end_
    /\ map date (timeSeries r)
       = map (fun i => day_text (toordinal start + i))
             (range (toordinal end_ - toordinal start + 1)).
Proof.
  intros H. pose proof H as H0. apply get_dashboard_ok in H0.
  destruct H0 as (d30 & start & end_ & Hd & Hs & He & _).
  pose proof (get_dashboard_dates _ _ _ _ _ _ _ Hd Hs He H) as Hdates.
  destruct (get_dashboard_meta _ _ _ _ H) as (d & Hd' & E).
  rewrite Hd in Hd'. injection Hd' as <-.
  exists start, end_. rewrite E. cbn [meta_from meta_to]. auto.
Qed.

(** X14.  A request that raises has drawn nothing: the loops never raise, so
    the exception is the [OverflowError] of the default of [from] or the
    [ValueError] of [strptime], and the generator is in the state the request
    found it in. *)
Theorem failure_draws_nothing args w e w' :
  get_dashboard args w = (Raise e, w') ->
  rng w' = rng w /\ (default_from w = Raise e \/ e = ValueError).
Proof.
  rewrite get_dashboard_unfold.
  destruct (default_from w) as [d30|e0].
  2: { intros H. injection H as <- <-. split; [reflexivity | left; reflexivity]. }
  cbv zeta.
  destruct (strptime (args_get args "from" (strftime d30))) as [start|e0] eqn:Hs.
  2: { intros H. injection H as <- <-.
       split; [reflexivity | right; eapply strptime_raises, Hs]. }
  destruct (strptime (args_get args "to" (strftime (now2 w)))) as [end_|e0] eqn:He.
  2: { intros H. injection H as <- <-.
       split; [reflexivity | right; eapply strptime_raises, He]. }
  intros H. exfalso.
  destruct (strptime_midnight _ _ Hs) as (Vs & _).
  destruct (strptime_midnight _ _ He) as (Ve & _).
  destruct (generate_total (args_get args "from" (strftime d30))
              (args_get args "to" (strftime (now2 w)))
              (args_get args "platform" "twitter") start end_ (after_clock w) Vs Ve)
    as (r & v & Hok).
  rewrite Hok in H. discriminate.
Qed.

End Extras.

(** ** The further properties at concrete requests *)

(** The request for every day of the calendar is answered, with 3652059
    points. *)
Lemma all_days_answered :
  exists r w',
    get_dashboard args_all_days world_noon = (Ok r, w')
    /\ Z.of_nat (List.length (timeSeries r)) = 3652059.
Proof.
  assert (Hd : default_from world_noon = Ok (mk_datetime 2024 5 16 12 30 0 0))
    by (vm_compute; reflexivity).
  assert (Hs : Text.strptime (args_get args_all_days "from"
                  (Text.strftime (mk_datetime 2024 5 16 12 30 0 0)))
               = Ok (mk_datetime 1 1 1 0 0 0 0)) by (vm_compute; reflexivity).
  assert (He : Text.strptime (args_get args_all_days "to"
                  (Text.strftime (now2 world_noon)))
               = Ok (mk_datetime 9999 12 31 0 0 0 0)) by (vm_compute; reflexivity).
  destruct (get_dashboard_total _ _ _ _ _ Hd Hs He) as (r & w' & H).
  pose proof (get_dashboard_dates _ _ _ _ _ _ _ Hd Hs He H) as Hdates.
  replace (Datetime.toordinal (mk_datetime 9999 12 31 0 0 0 0)
           - Datetime.toordinal (mk_datetime 1 1 1 0 0 0 0) + 1) with 3652059 in Hdates
    by (vm_compute; reflexivity).
  exists r, w'. split; [exact H|].
  rewrite <- (length_map date), Hdates, length_map, range_length. lia.
Qed.

Lemma request_reads_clock_twice_witness :
  exists r w',
    get_dashboard args_three_days world_noon = (Ok r, w')
    /\ clock_reads w' = 2%nat.
Proof.
  destruct three_days_answered as (r & w' & p & H & _).
  exists r, w'. split; [exact H|].
  exact (proj2 (proj2 (request_reads_clock_twice _ _ _ _ H)) r eq_refl).
Defined.

Lemma date_error_draws_nothing_witness :
  get_dashboard args_bad_to world_noon = (Raise ValueError, after_clock world_noon)
  /\ rng (snd (get_dashboard args_bad_to world_noon)) = 42.
Proof.
  apply (date_error_draws_nothing args_bad_to world_noon
           (mk_datetime 2024 5 16 12 30 0 0)).
  - vm_compute. reflexivity.
  - right. intros dt. vm_compute. discriminate.
Defined.

Lemma default_is_computed_first_witness :
  fst (get_dashboard args_three_days world_year_one) = Raise OverflowError.
Proof.
  rewrite (default_is_computed_first args_three_days world_year_one);
    [reflexivity | vm_compute; reflexivity | vm_compute; discriminate].
Defined.

Lemma node_ids_are_the_forty_users_witness :
  exists r w',
    get_dashboard args_three_days world_noon = (Ok r, w')
    /\ NoDup (map node_id (nodes (graph r))).
Proof.
  destruct three_days_answered as (r & w' & p & H & _).
  exists r, w'. split; [exact H|].
  exact (proj2 (node_ids_are_the_forty_users _ _ _ _ H)).
Defined.

Lemma only_three_keys_matter_witness :
  get_dashboard args_with_more world_noon = get_dashboard args_three_days world_noon.
Proof.
  apply (only_three_keys_matter args_with_more args_three_days world_noon);
    reflexivity.
Defined.

Lemma default_window_witness :
  exists r w',
    get_dashboard [] world_midnight = (Ok r, w')
    /\ Z.of_nat (List.length (timeSeries r)) = 32.
Proof.
  destruct (default_window [] world_midnight) as (r & w' & H & Hlen & _);
    [reflexivity | reflexivity | reflexivity | vm_compute; reflexivity
    | vm_compute; reflexivity | vm_compute; discriminate
    | vm_compute; discriminate |].
  exists r, w'. split; [exact H | exact Hlen].
Defined.

Lemma count_range_witness :
  exists r w' p,
    get_dashboard args_three_days world_noon = (Ok r, w')
    /\ In p (timeSeries r) /\ 160 <= count p <= 300.
Proof.
  destruct three_days_answered as (r & w' & p & H & Hin).
  exists r, w', p. split; [exact H|]. split; [exact Hin|].
  exact (count_range _ _ _ _ _ H Hin).
Defined.

Lemma time_series_length_bound_witness :
  exists r w',
    get_dashboard args_all_days world_noon = (Ok r, w')
    /\ Z.of_nat (List.length (timeSeries r)) = 3652059
    /\ Z.of_nat (List.length (timeSeries r)) <= Calendar._MAXORDINAL.
Proof.
  destruct all_days_answered as (r & w' & H & Hlen).
  exists r, w'. split; [exact H|]. split; [exact Hlen|].
  exact (time_series_length_bound _ _ _ _ H).
Defined.

Lemma explicit_dates_ignore_clock_witness :
  fst (get_dashboard args_three_days world_noon)
  = fst (get_dashboard args_three_days world_evening).
Proof.
  exact (proj1 (explicit_dates_ignore_clock args_three_days world_noon
                  world_evening "2024-01-01" "2024-01-03"
                  (mk_datetime 2024 5 16 12 30 0 0)
                  (mk_datetime 2031 12 1 23 0 0 0)
                  eq_refl eq_refl eq_refl eq_refl eq_refl)).
Defined.

Lemma add_days_then_subtract_witness :
  exists d,
    Datetime.datetime_add (mk_datetime 2024 2 28 13 45 10 5) (mk_timedelta 2 0 0) = Ok d
    /\ Datetime.datetime_sub d (mk_datetime 2024 2 28 13 45 10 5)
       = Ok (mk_timedelta 2 0 0).
Proof.
  destruct (add_days_then_subtract (mk_datetime 2024 2 28 13 45 10 5) 2)
    as (d & Ha & _ & _ & Hs);
    [vm_compute; reflexivity | vm_compute; split; [reflexivity | discriminate] |].
  exists d. split; [exact Ha | exact Hs].
Defined.

Lemma strptime_normal_form_witness :
  Text.strptime (Text.strftime (mk_datetime 2024 1 3 0 0 0 0))
  = Ok (mk_datetime 2024 1 3 0 0 0 0).
Proof.
  apply (strptime_normal_form "2024-1-3" (mk_datetime 2024 1 3 0 0 0 0) eq_refl).
  vm_compute. discriminate.
Defined.

Lemma dates_distinct_and_ten_long_witness :
  exists r w',
    get_dashboard args_three_days world_noon = (Ok r, w')
    /\ NoDup (map date (timeSeries r)).
Proof.
  destruct three_days_answered as (r & w' & p & H & _).
  exists r, w'. split; [exact H|].
  exact (proj1 (dates_distinct_and_ten_long _ _ _ _ H)).
Defined.

Lemma series_follows_meta_witness :
  exists r w' start end_,
    get_dashboard args_three_days world_noon = (Ok r, w')
    /\ Text.strptime (meta_from (meta r)) = Ok start
    /\ Text.strptime (meta_to (meta r)) = Ok end_.
Proof.
  destruct three_days_answered as (r & w' & p & H & _).
  destruct (series_follows_meta _ _ _ _ H) as (start & end_ & Hs & He & _).
  exists r, w', start, end_. split; [exact H|]. split; [exact Hs | exact He].
Defined.

(** The request with a malformed [from] raises after the two clock
    readings. *)
Lemma malformed_raises :
  get_dashboard args_malformed world_noon
  = (Raise ValueError, after_clock world_noon).
Proof.
  assert (Hd : default_from world_noon = Ok (mk_datetime 2024 5 16 12 30 0 0))
    by (vm_compute; reflexivity).
  assert (Hs : Text.strptime (args_get args_malformed "from"
                  (Text.strftime (mk_datetime 2024 5 16 12 30 0 0)))
               = Raise ValueError) by (vm_compute; reflexivity).
  rewrite get_dashboard_unfold, Hd. cbv zeta. rewrite Hs. reflexivity.
Qed.

Lemma failure_draws_nothing_witness :
  rng (after_clock world_noon) = rng world_noon
  /\ (default_from world_noon = Raise ValueError \/ ValueError = ValueError).
Proof.
  exact (failure_draws_nothing _ _ _ _ malformed_raises).
Defined.
